(** * Dating-coach backend: model and verified properties

    A shallow embedding of the backend of the dating-coach demo
    (photoVerification.ts, storage.ts, types.ts, llm.ts, simulations.ts and
    server.ts) together with proofs about photo verification, the in-memory
    store, the REST handlers and the simulation aggregator.

    Modelling conventions.
    - JavaScript numbers that the program only ever uses as integers
      (slider percentages, scores, counts, confidences, time stamps) are [Z].
      Where the program divides ([sum / length]) or draws [Math.random()],
      the value is an exact rational [Q]; all such values stay far below
      2^53 and the comparisons made on them are exact on doubles as well.
    - [Math.random()] is an input of the model: a rational [r] with
      [0 <= r < 1].  (On doubles [Math.floor(r * 15)] and
      [Math.floor(r * 35)] stay below 15 and 35 as well: the largest double
      below 1 times 15 or 35 rounds to a double below 15 or 35.)
      Identifiers ([uuidv4()]), time stamps ([new Date()]) and
      the text returned by the language-model client are inputs as well.
    - A JavaScript [Map] is an association list in insertion order.
    - [async] functions are modelled by the value they resolve to. *)

From Stdlib Require Import List ZArith QArith Qround String Ascii Bool.
From Stdlib Require Import Lia Lqa Permutation Sorted.
Import ListNotations.

Local Open Scope string_scope.
Local Open Scope list_scope.
Local Open Scope Z_scope.

Set Implicit Arguments.

(* ================================================================== *)
(** * JavaScript primitives used by the backend *)
(* ================================================================== *)

Module Js.

(** [Math.floor] and [Math.round] on a rational.  [Math.round] rounds to
    the nearest integer, a tie going up. *)
Definition Math_floor (q : Q) : Z := Qfloor q.
Definition Math_round (q : Q) : Z := Qfloor (q + (1 # 2)).

(** [s.includes(pat)]: [pat] occurs in [s] as a contiguous substring. *)
Fixpoint includes (s pat : string) : bool :=
  String.prefix pat s
  || match s with
     | EmptyString => false
     | String _ s' => includes s' pat
     end.

(** [arr.push(x)], [arr.slice(0, n)] and [arr.some(p)]. *)
Definition push {A} (arr : list A) (x : A) : list A := arr ++ [x].
Definition slice0 {A} (n : nat) (arr : list A) : list A := firstn n arr.
Definition some {A} (p : A -> bool) (arr : list A) : bool := existsb p arr.

(** [a || b] on an optional number: [undefined], [null] and [0] are
    falsy. *)
Definition or_default (a : option Z) (b : Z) : Z :=
  match a with
  | Some v => if v =? 0 then b else v
  | None => b
  end.

(** The sign of the number returned by a sort comparator. *)
Definition signZ (z : Z) : comparison := z ?= 0.
Definition signQ (q : Q) : comparison := (q ?= 0)%Q.

(** [arr.sort(cmp)].  The sort is stable: [cmp a b > 0] puts [b] before
    [a], and elements the comparator does not separate keep their order.
    For the comparators of this program that fixes the outcome (see
    [stable_desc_unique] below), whichever algorithm the engine runs; the
    model inserts the elements one by one, last element first, each ahead
    of the first element it need not follow. *)
Section Sort.
Variable A : Type.
Variable cmp : A -> A -> comparison.

Fixpoint insert (x : A) (l : list A) : list A :=
  match l with
  | [] => [x]
  | y :: l' =>
      match cmp x y with
      | Gt => y :: insert x l'
      | _ => x :: l
      end
  end.

Fixpoint sort (l : list A) : list A :=
  match l with
  | [] => []
  | x :: l' => insert x (sort l')
  end.
End Sort.

(** The comparator lets [a] stand before [b]. *)
Definition may_precede {A} (cmp : A -> A -> comparison) (a b : A) : Prop :=
  cmp a b <> Gt.

(** The comparator does not separate [a] from [b]. *)
Definition tie {A} (cmp : A -> A -> comparison) (a b : A) : bool :=
  match cmp a b with Eq => true | _ => false end.

(** A [Map<string, V>]: entries in insertion order; [set] on an existing
    key keeps the position of the entry. *)
Definition Map (V : Type) : Type := list (string * V).

Fixpoint Map_get {V} (m : Map V) (k : string) : option V :=
  match m with
  | [] => None
  | (k', v) :: m' => if String.eqb k' k then Some v else Map_get m' k
  end.

Definition Map_has {V} (m : Map V) (k : string) : bool :=
  match Map_get m k with Some _ => true | None => false end.

Fixpoint Map_set {V} (m : Map V) (k : string) (v : V) : Map V :=
  match m with
  | [] => [(k, v)]
  | (k', v') :: m' =>
      if String.eqb k' k then (k', v) :: m' else (k', v') :: Map_set m' k v
  end.

Definition Map_entries {V} (m : Map V) : list (string * V) := m.

(** The update both grouping loops of the aggregator perform on their
    map: the entry of an item's label is set to a value computed from the
    entry found there (if any) and the item. *)
Definition Map_accumulate {T V} (kf : T -> string) (upd : option V -> T -> V)
           (m : Map V) (t : T) : Map V :=
  Map_set m (kf t) (upd (Map_get m (kf t)) t).

End Js.

(* ================================================================== *)
(** * photoVerification.ts *)
(* ================================================================== *)

Module PhotoVerification.

Inductive Status := success | inconclusive | failed.

Record t := mk {
  status : Status;
  confidence : Z;
  message : string
}.

(** [analyzePhotos(photoPaths)]; [rnd] is the value [Math.random()]
    returns when the function reaches the draw. *)
Definition analyzePhotos (rnd : Q) (photoPaths : list string) : t :=
  if (List.length photoPaths =? 0)%nat then
    mk failed 0 "No photos provided"
  else if (List.length photoPaths =? 1)%nat then
    mk success 75
       "Single photo uploaded. Consider adding more photos for better verification."
  else
    let mockConfidence := 80 + Js.Math_floor (rnd * 15) in
    if mockConfidence >=? 85 then
      mk success mockConfidence
         "Photos appear consistent. Likely same person across all images."
    else if mockConfidence >=? 70 then
      mk inconclusive mockConfidence
         "Photos have some consistency but verification is inconclusive. This is just a basic check."
    else
      mk failed mockConfidence
         "Photos appear inconsistent. Please ensure all photos are of yourself.".

(** The classification the specification words for two or more photos. *)
Definition classify (c : Z) : Status :=
  if c >=? 85 then success else if c >=? 70 then inconclusive else failed.

End PhotoVerification.

(* ================================================================== *)
(** * types.ts *)
(* ================================================================== *)

Module TextingTone.
Record t := mk {
  positivity : Z;      (* 0-100 *)
  playfulness : Z;     (* 0-100 *)
  responseLength : Z   (* 0-100 *)
}.
End TextingTone.

Module UserProfile.
Record t := mk {
  id : string;
  name : string;
  ageRange : string;
  gender : string;
  interestedIn : string;
  bio : string;
  relationshipGoals : string;
  textingTone : TextingTone.t;
  selfRatedAttractiveness : option Z;
  photos : list string;
  createdAt : Z
}.

(** [Partial<UserProfile>]: [None] is a key the object does not carry. *)
Record partial := mkPartial {
  id' : option string;
  name' : option string;
  ageRange' : option string;
  gender' : option string;
  interestedIn' : option string;
  bio' : option string;
  relationshipGoals' : option string;
  textingTone' : option TextingTone.t;
  selfRatedAttractiveness' : option (option Z);
  photos' : option (list string);
  createdAt' : option Z
}.

Definition override {A} (old : A) (upd : option A) : A :=
  match upd with Some v => v | None => old end.

(** [{ ...profile, ...updates }] *)
Definition spread (profile : t) (updates : partial) : t :=
  mk (override (id profile) (id' updates))
     (override (name profile) (name' updates))
     (override (ageRange profile) (ageRange' updates))
     (override (gender profile) (gender' updates))
     (override (interestedIn profile) (interestedIn' updates))
     (override (bio profile) (bio' updates))
     (override (relationshipGoals profile) (relationshipGoals' updates))
     (override (textingTone profile) (textingTone' updates))
     (override (selfRatedAttractiveness profile)
               (selfRatedAttractiveness' updates))
     (override (photos profile) (photos' updates))
     (override (createdAt profile) (createdAt' updates)).

(** [{ photos: photoPaths }] *)
Definition only_photos (photoPaths : list string) : partial :=
  mkPartial None None None None None None None None None
            (Some photoPaths) None.
End UserProfile.

Module ChatMessage.
Inductive Sender := user | agent.
Record t := mk {
  id : string;
  sender : Sender;
  content : string;
  timestamp : Z
}.
End ChatMessage.

Module SimulationResult.
Record t := mk {
  match_archetype : string;
  match_initial_message : string;
  user_expected_reply : string;
  compatibility_score : Z;            (* 0-100 *)
  potential_issue : option string     (* [None]: null or undefined *)
}.
End SimulationResult.

(** The summary fields of [SimulationSummary] that the aggregation
    properties read; [suggested_openers] and [vibe_analysis] are text
    blocks built beside them and are not part of the model. *)
Module SimulationSummary.
Record t := mk {
  total_simulations : Z;
  average_compatibility : Z;
  top_archetypes : list string;
  common_issues : list string;
  coaching_tips : list string
}.
End SimulationSummary.

(* ================================================================== *)
(** * llm.ts *)
(* ================================================================== *)

Module Llm.

Record VibeAnalysis := mkVibe {
  overall_tone : string;
  energy_level : string;
  communication_style : string;
  key_traits : list string
}.

(** [analyzeVibe] calls the language model and then returns a fixed
    object, whatever the reply was. *)
Definition analyzeVibe (bio : string) (chatHistory : list string)
  : VibeAnalysis :=
  mkVibe "positive" "medium-high" "friendly and direct"
         ["enthusiastic"; "curious"; "thoughtful"; "authentic"].

Definition archetypes : list string :=
  [ "Adventurous Extrovert";
    "Thoughtful Introvert";
    "Creative Free Spirit";
    "Ambitious Professional";
    "Laid-back Homebody";
    "Social Butterfly";
    "Intellectual Conversationalist";
    "Outdoor Enthusiast";
    "Art & Culture Lover";
    "Fitness Enthusiast" ].

Definition issues : list (option string) :=
  [ Some "May come across as too eager - balance enthusiasm with letting conversation breathe";
    Some "Could benefit from asking more follow-up questions to show genuine interest";
    Some "Responses might be too brief - consider sharing a bit more to keep momentum";
    Some "Watch for over-sharing too early - build rapport gradually";
    None ].

(** [arr[i]] for an index the caller reduced modulo [arr.length]. *)
Definition at_index {A} (arr : list A) (i : nat) (undefined : A) : A :=
  nth i arr undefined.

Definition openers (scenarioNumber : nat) : list string :=
  let pick l := at_index l (scenarioNumber mod 4) "" in
  [ ("Hey! I noticed you mentioned "
       ++ pick ["hiking"; "reading"; "cooking"; "traveling"]
       ++ " in your profile. What got you into that?")%string;
    ("Hi there! Your profile caught my eye - you seem like someone who "
       ++ pick ["values authenticity"; "loves adventure";
                "enjoys deep conversations"; "has great energy"]
       ++ ".")%string;
    ("Hey! Quick question: "
       ++ pick ["coffee or tea?"; "beach or mountains?";
                "morning person or night owl?";
                "cook at home or try new restaurants?"])%string;
    ("Hi! I had to reach out - "
       ++ pick ["your smile is contagious";
                "you seem like you'd be fun to talk to";
                "we have similar interests"; "your vibe seems amazing"]
       ++ ".")%string ].

(** [generateSimulation(profileSummary, scenarioNumber)]; [rnd] is the
    value of its one [Math.random()] call. *)
Definition generateSimulation (rnd : Q) (profileSummary : string)
           (scenarioNumber : nat) : SimulationResult.t :=
  let archetype :=
    at_index archetypes (scenarioNumber mod List.length archetypes) "" in
  let compatibilityScore := 60 + Js.Math_floor (rnd * 35) in
  let openers := openers scenarioNumber in
  SimulationResult.mk
    archetype
    (at_index openers (scenarioNumber mod List.length openers) "")
    "Likely positive and engaged, with reciprocal interest"
    compatibilityScore
    (at_index issues (scenarioNumber mod List.length issues) None).

End Llm.

(* ================================================================== *)
(** * simulations.ts *)
(* ================================================================== *)

Module Simulations.
Import SimulationResult.

(** The loop of [runSimulations]: scenario [i] for [i = 0 .. 49], each
    pushed in turn; [rnd i] is the random draw of scenario [i]. *)
Definition generateBatch (rnd : nat -> Q) (profileSummary : string)
  : list SimulationResult.t :=
  map (fun i => Llm.generateSimulation (rnd i) profileSummary i) (seq 0 50).

(** [simulations.reduce((sum, sim) => sum + sim.compatibility_score, 0)] *)
Definition totalCompatibility (simulations : list SimulationResult.t) : Z :=
  fold_left (fun sum sim => sum + compatibility_score sim) simulations 0.

(** [Math.round(totalCompatibility / simulations.length)].  (On an empty
    array JavaScript yields NaN; [runSimulations] always passes 50
    records.) *)
Definition averageCompatibility (simulations : list SimulationResult.t) : Z :=
  Js.Math_round (inject_Z (totalCompatibility simulations)
                 / inject_Z (Z.of_nat (List.length simulations))).

(** One turn of the [forEach] that fills [archetypeScores]. *)
Definition archetypeScores_step (archetypeScores : Js.Map (list Z))
           (sim : SimulationResult.t) : Js.Map (list Z) :=
  let m :=
    if negb (Js.Map_has archetypeScores (match_archetype sim))
    then Js.Map_set archetypeScores (match_archetype sim) []
    else archetypeScores in
  match Js.Map_get m (match_archetype sim) with
  | Some scores =>
      (* [push] on the array held by the map *)
      Js.Map_set m (match_archetype sim)
                 (Js.push scores (compatibility_score sim))
  | None => m (* not reached: the key was set just above *)
  end.

Definition archetypeScores (simulations : list SimulationResult.t)
  : Js.Map (list Z) :=
  fold_left archetypeScores_step simulations [].

(** [scores.reduce((a, b) => a + b, 0) / scores.length] *)
Definition avgScore (scores : list Z) : Q :=
  inject_Z (fold_left (fun a b => a + b) scores 0)
  / inject_Z (Z.of_nat (List.length scores)).

(** The comparator [(a, b) => b.avgScore - a.avgScore]; an object
    [{archetype, avgScore}] is a pair. *)
Definition byAvgScoreDesc (a b : string * Q) : comparison :=
  Js.signQ (snd b - snd a).

Definition topArchetypes (simulations : list SimulationResult.t)
  : list string :=
  map fst
      (Js.slice0 5
         (Js.sort byAvgScoreDesc
            (map (fun '(archetype, scores) => (archetype, avgScore scores))
                 (Js.Map_entries (archetypeScores simulations))))).

(** [simulations.map(sim => sim.potential_issue).filter(issue =>
    issue !== null && issue !== undefined)] *)
Definition issues (simulations : list SimulationResult.t) : list string :=
  flat_map (fun issue => match issue with Some s => [s] | None => [] end)
           (map potential_issue simulations).

(** [issueFrequency.set(issue, (issueFrequency.get(issue) || 0) + 1)] *)
Definition issueFrequency_step (issueFrequency : Js.Map Z) (issue : string)
  : Js.Map Z :=
  Js.Map_set issueFrequency issue
             (Js.or_default (Js.Map_get issueFrequency issue) 0 + 1).

Definition issueFrequency (simulations : list SimulationResult.t)
  : Js.Map Z :=
  fold_left issueFrequency_step (issues simulations) [].

(** The comparator [(a, b) => b[1] - a[1]]. *)
Definition byCountDesc (a b : string * Z) : comparison :=
  Js.signZ (snd b - snd a).

Definition commonIssues (simulations : list SimulationResult.t)
  : list string :=
  map fst
      (Js.slice0 3
         (Js.sort byCountDesc
                  (Js.Map_entries (issueFrequency simulations)))).

(** The tip texts of [generateCoachingTips]. *)
Definition tip_score_high :=
  "Your vibe is strong! Keep being authentic and let your personality shine through.".
Definition tip_score_mid :=
  "You have good potential. Focus on showing more of your unique interests and values.".
Definition tip_score_low :=
  "Consider refining your approach. Be more specific about your interests and what makes you unique.".
Definition tip_positivity :=
  "Try incorporating more positive language and enthusiasm in your messages.".
Definition tip_playfulness_low :=
  "Don't be afraid to be a bit more playful and show your sense of humor.".
Definition tip_playfulness_high :=
  "Balance your playfulness with moments of genuine depth and sincerity.".
Definition tip_length_low :=
  "Your responses might be too brief. Try sharing a bit more to keep conversations flowing.".
Definition tip_length_high :=
  "Keep your messages concise. Long responses can sometimes overwhelm the conversation.".
Definition tip_questions :=
  "Ask more open-ended questions to show genuine interest and keep the conversation balanced.".
Definition tip_breathe :=
  "Let conversations breathe naturally. Sometimes less is more when building connection.".

Definition generateCoachingTips (profile : UserProfile.t)
           (vibeAnalysis : Llm.VibeAnalysis) (commonIssues : list string)
           (avgCompatibility : Z) : list string :=
  let tone := UserProfile.textingTone profile in
  let tips : list string := [] in
  (* Tip based on compatibility score *)
  let tips :=
    if avgCompatibility >=? 75 then Js.push tips tip_score_high
    else if avgCompatibility >=? 60 then Js.push tips tip_score_mid
    else Js.push tips tip_score_low in
  (* Tip based on texting tone *)
  let tips :=
    if TextingTone.positivity tone <? 50 then Js.push tips tip_positivity
    else tips in
  let tips :=
    if TextingTone.playfulness tone <? 40 then
      Js.push tips tip_playfulness_low
    else if TextingTone.playfulness tone >? 80 then
      Js.push tips tip_playfulness_high
    else tips in
  let tips :=
    if TextingTone.responseLength tone <? 30 then
      Js.push tips tip_length_low
    else if TextingTone.responseLength tone >? 80 then
      Js.push tips tip_length_high
    else tips in
  (* Tip based on common issues *)
  let tips :=
    if Js.some (fun issue => Js.includes issue "question") commonIssues
    then Js.push tips tip_questions
    else tips in
  let tips :=
    if Js.some (fun issue => Js.includes issue "eager"
                             || Js.includes issue "enthusias") commonIssues
    then Js.push tips tip_breathe
    else tips in
  Js.slice0 5 tips.

Definition analyzeSimulations (simulations : list SimulationResult.t)
           (vibeAnalysis : Llm.VibeAnalysis) (profile : UserProfile.t)
  : SimulationSummary.t :=
  let averageCompatibility := averageCompatibility simulations in
  let topArchetypes := topArchetypes simulations in
  let commonIssues := commonIssues simulations in
  let coachingTips :=
    generateCoachingTips profile vibeAnalysis commonIssues
                         averageCompatibility in
  SimulationSummary.mk 50 averageCompatibility topArchetypes commonIssues
                       coachingTips.

(** [runSimulations(profile, chatHistory)].  [rnd] gives the random draw of
    each scenario; [profileSummary] is the text of [buildProfileSummary],
    which [generateSimulation] receives and does not read. *)
Definition runSimulations (rnd : nat -> Q) (profileSummary : string)
           (profile : UserProfile.t) (chatHistory : list ChatMessage.t)
  : SimulationSummary.t :=
  let userMessages :=
    map ChatMessage.content
        (filter (fun msg => match ChatMessage.sender msg with
                            | ChatMessage.user => true
                            | ChatMessage.agent => false
                            end) chatHistory) in
  let vibeAnalysis := Llm.analyzeVibe (UserProfile.bio profile) userMessages in
  let simulations := generateBatch rnd profileSummary in
  analyzeSimulations simulations vibeAnalysis profile.

End Simulations.

(* ================================================================== *)
(** * storage.ts *)
(* ================================================================== *)

Module Storage.

(** The fields of the [Storage] object. *)
Record t := mk {
  profile : option UserProfile.t;
  chatHistory : list ChatMessage.t;
  simulationResults : option SimulationSummary.t
}.

(** [new Storage()] *)
Definition initial : t := mk None [] None.

Definition saveProfile (this : t) (profile : UserProfile.t) : t :=
  mk (Some profile) (chatHistory this) (simulationResults this).

Definition getProfile (this : t) : option UserProfile.t := profile this.

Definition updateProfile (this : t) (updates : UserProfile.partial)
  : option UserProfile.t * t :=
  match profile this with
  | None => (None, this)
  | Some old =>
      let new := UserProfile.spread old updates in
      (Some new, mk (Some new) (chatHistory this) (simulationResults this))
  end.

Definition addMessage (this : t) (message : ChatMessage.t) : t :=
  mk (profile this) (Js.push (chatHistory this) message)
     (simulationResults this).

Definition getChatHistory (this : t) : list ChatMessage.t := chatHistory this.

Definition clearChatHistory (this : t) : t :=
  mk (profile this) [] (simulationResults this).

Definition saveSimulationResults (this : t) (results : SimulationSummary.t)
  : t :=
  mk (profile this) (chatHistory this) (Some results).

Definition getSimulationResults (this : t) : option SimulationSummary.t :=
  simulationResults this.

Definition reset (this : t) : t := mk None [] None.

(** A call of one of the methods that write to the store. *)
Inductive Method :=
| SaveProfile (profile : UserProfile.t)
| UpdateProfile (updates : UserProfile.partial)
| AddMessage (message : ChatMessage.t)
| ClearChatHistory
| SaveSimulationResults (results : SimulationSummary.t)
| Reset.

Definition call (method : Method) (this : t) : t :=
  match method with
  | SaveProfile profile => saveProfile this profile
  | UpdateProfile updates => snd (updateProfile this updates)
  | AddMessage message => addMessage this message
  | ClearChatHistory => clearChatHistory this
  | SaveSimulationResults results => saveSimulationResults this results
  | Reset => reset this
  end.

End Storage.

(* ================================================================== *)
(** * server.ts *)
(* ================================================================== *)

Module Server.

(** The [textingTone] object of a profile request; a field is [None] when
    the object does not carry it (or carries null). *)
Record ToneBody := mkTone {
  positivity : option Z;
  playfulness : option Z;
  responseLength : option Z
}.

(** The JSON body of [POST /api/profile]; [textingTone] is [None] when the
    body has no such object. *)
Record ProfileBody := mkBody {
  name : string;
  ageRange : string;
  gender : string;
  interestedIn : string;
  bio : string;
  relationshipGoals : string;
  textingTone : option ToneBody;
  selfRatedAttractiveness : option Z
}.

(** A file as the upload middleware hands it to the handler. *)
Record File := mkFile {
  originalname : string;
  mimetype : string;
  size : Z;
  filename : string
}.

(** One [uuidv4()] with the [new Date()] that follows it. *)
Record Stamp := mkStamp {
  uuid : string;
  now : Z
}.

(** What the environment supplies to one run of [POST /api/chat/message]:
    two stamps and the string [callLLM] resolves to.  [callLLM] never
    rejects: the request to the model and the reading of its answer sit in
    one [try], and the [catch] branch returns one of the canned texts. *)
Record ChatEnv := mkChatEnv {
  userStamp : Stamp;
  aiResponse : string;
  aiStamp : Stamp
}.

(** What the environment supplies to one run of [POST /api/simulations/run]:
    two stamps, the 50 random draws, the text of [buildProfileSummary] and
    the text of [buildSimulationSummaryMessage]. *)
Record RunEnv := mkRunEnv {
  startStamp : Stamp;
  draws : nat -> Q;
  profileSummary : string;
  summaryText : string;
  completionStamp : Stamp
}.

Inductive Response :=
| Health (timestamp : Z)
| ProfileCreated (profile : UserProfile.t) (welcomeMessage : ChatMessage.t)
| ProfileFound (profile : UserProfile.t)
| PhotosStored (photos : list string) (verification : PhotoVerification.t)
| Verified (verification : PhotoVerification.t)
| ChatHistory (messages : list ChatMessage.t)
| MessageSent (message : ChatMessage.t)
| SimulationsRun (results : SimulationSummary.t) (message : ChatMessage.t)
| SimulationResults (results : SimulationSummary.t)
| Failure (status : Z) (error : string)
| Exception.   (* the [catch] branch: status 500 with the exception text *)

Definition welcomeText (name : string) : string :=
  ("Hey " ++ name
   ++ "! 👋 I'm your AI dating coach. I'm here to help you understand your dating vibe and give you personalized advice. Let's chat a bit so I can get to know you better! What brings you here today?")%string.

(** [app.post('/api/profile', ...)].  Reading [positivity] of a body that
    has no [textingTone] object throws; the [catch] branch answers. *)
Definition post_profile (env : Stamp * Stamp) (profileData : ProfileBody)
           (storage : Storage.t) : Response * Storage.t :=
  match textingTone profileData with
  | None => (Exception, storage)
  | Some tone =>
      let profile :=
        UserProfile.mk
          (uuid (fst env))
          (name profileData)
          (ageRange profileData)
          (gender profileData)
          (interestedIn profileData)
          (bio profileData)
          (relationshipGoals profileData)
          (TextingTone.mk (Js.or_default (positivity tone) 50)
                          (Js.or_default (playfulness tone) 50)
                          (Js.or_default (responseLength tone) 50))
          (selfRatedAttractiveness profileData)
          []
          (now (fst env)) in
      let storage := Storage.saveProfile storage profile in
      let welcomeMessage :=
        ChatMessage.mk (uuid (snd env)) ChatMessage.agent
                       (welcomeText (UserProfile.name profile))
                       (now (snd env)) in
      let storage := Storage.addMessage storage welcomeMessage in
      (ProfileCreated profile welcomeMessage, storage)
  end.

Definition get_profile (storage : Storage.t) : Response * Storage.t :=
  match Storage.getProfile storage with
  | None => (Failure 404 "Profile not found", storage)
  | Some profile => (ProfileFound profile, storage)
  end.

(** [app.post('/api/photos', upload.array('photos', 3), ...)], from the
    point where the middleware has stored the files; [rnd] is the random
    draw of [analyzePhotos]. *)
Definition post_photos (rnd : Q) (files : list File) (storage : Storage.t)
  : Response * Storage.t :=
  match Storage.getProfile storage with
  | None =>
      (Failure 404 "Profile not found. Please complete onboarding first.",
       storage)
  | Some _ =>
      if (List.length files =? 0)%nat then
        (Failure 400 "No files uploaded", storage)
      else
        let photoPaths := map filename files in
        let storage :=
          snd (Storage.updateProfile storage
                                     (UserProfile.only_photos photoPaths)) in
        let verification := PhotoVerification.analyzePhotos rnd photoPaths in
        (PhotosStored photoPaths verification, storage)
  end.

Definition get_photos_verification (rnd : Q) (storage : Storage.t)
  : Response * Storage.t :=
  match Storage.getProfile storage with
  | None => (Failure 404 "No photos found", storage)
  | Some profile =>
      if (List.length (UserProfile.photos profile) =? 0)%nat then
        (Failure 404 "No photos found", storage)
      else
        (Verified (PhotoVerification.analyzePhotos
                     rnd (UserProfile.photos profile)),
         storage)
  end.

Definition get_chat_history (storage : Storage.t) : Response * Storage.t :=
  (ChatHistory (Storage.getChatHistory storage), storage).

(** [app.post('/api/chat/message', ...)].  [content] is [None] when the
    body carries no [content] or one that is not a string. *)
Definition post_chat_message (env : ChatEnv) (content : option string)
           (storage : Storage.t) : Response * Storage.t :=
  match content with
  | None | Some EmptyString =>
      (Failure 400 "Message content is required", storage)
  | Some content =>
      match Storage.getProfile storage with
      | None => (Failure 404 "Profile not found", storage)
      | Some profile =>
          let userMessage :=
            ChatMessage.mk (uuid (userStamp env)) ChatMessage.user content
                           (now (userStamp env)) in
          let storage := Storage.addMessage storage userMessage in
          let aiResponse := aiResponse env in
          let aiMessage :=
            ChatMessage.mk (uuid (aiStamp env)) ChatMessage.agent aiResponse
                           (now (aiStamp env)) in
          let storage := Storage.addMessage storage aiMessage in
          (MessageSent aiMessage, storage)
      end
  end.

Definition startText : string :=
  "Great! I'm going to run 50 simulated dating scenarios based on your profile and our conversations. This will take about 30 seconds. I'll analyze how you might interact with different personality types and give you personalized insights!".

(** [app.post('/api/simulations/run', ...)].  The handler's [chatHistory]
    is the stored array itself, so it holds the start message by the time
    [runSimulations] reads it.  The stored profile is a [UserProfile.t]:
    its [bio] and [relationshipGoals] are strings, on which
    [runSimulations] does not throw. *)
Definition post_simulations_run (env : RunEnv) (storage : Storage.t)
  : Response * Storage.t :=
  match Storage.getProfile storage with
  | None => (Failure 404 "Profile not found", storage)
  | Some profile =>
      let startMessage :=
        ChatMessage.mk (uuid (startStamp env)) ChatMessage.agent startText
                       (now (startStamp env)) in
      let storage := Storage.addMessage storage startMessage in
      let results :=
        Simulations.runSimulations (draws env) (profileSummary env) profile
                                   (Storage.getChatHistory storage) in
      let storage := Storage.saveSimulationResults storage results in
      let completionMessage :=
        ChatMessage.mk (uuid (completionStamp env)) ChatMessage.agent
                       (summaryText env) (now (completionStamp env)) in
      let storage := Storage.addMessage storage completionMessage in
      (SimulationsRun results completionMessage, storage)
  end.

Definition get_simulations_results (storage : Storage.t)
  : Response * Storage.t :=
  match Storage.getSimulationResults storage with
  | None => (Failure 404 "No simulation results found", storage)
  | Some results => (SimulationResults results, storage)
  end.

(** The requests the server answers. *)
Inductive Request :=
| GET_health (timestamp : Z)
| POST_profile (env : Stamp * Stamp) (body : ProfileBody)
| GET_profile
| POST_photos (rnd : Q) (files : list File)
| GET_photos_verification (rnd : Q)
| GET_chat_history
| POST_chat_message (env : ChatEnv) (content : option string)
| POST_simulations_run (env : RunEnv)
| GET_simulations_results.

Definition handle (request : Request) (storage : Storage.t)
  : Response * Storage.t :=
  match request with
  | GET_health timestamp => (Health timestamp, storage)
  | POST_profile env body => post_profile env body storage
  | GET_profile => get_profile storage
  | POST_photos rnd files => post_photos rnd files storage
  | GET_photos_verification rnd => get_photos_verification rnd storage
  | GET_chat_history => get_chat_history storage
  | POST_chat_message env content => post_chat_message env content storage
  | POST_simulations_run env => post_simulations_run env storage
  | GET_simulations_results => get_simulations_results storage
  end.

(** The store after a sequence of requests, handled one after the other. *)
Definition serve (requests : list Request) (storage : Storage.t) : Storage.t :=
  fold_left (fun storage request => snd (handle request storage))
            requests storage.

End Server.

(* ================================================================== *)
(** * Properties of the store, as the specification words them *)
(* ================================================================== *)

Module ServerSpec.
Import Server.

(** The request of one send-message call, and the two messages it adds:
    the user's message, then the agent's reply. *)
Definition send (call : ChatEnv * string) : Request :=
  POST_chat_message (fst call) (Some (snd call)).

Definition exchange (call : ChatEnv * string) : list ChatMessage.t :=
  [ ChatMessage.mk (uuid (userStamp (fst call))) ChatMessage.user (snd call)
                   (now (userStamp (fst call)));
    ChatMessage.mk (uuid (aiStamp (fst call))) ChatMessage.agent
                   (aiResponse (fst call)) (now (aiStamp (fst call))) ].

(** The request is neither [POST /api/profile] nor
    [POST /api/simulations/run], the two other endpoints that add to the
    chat history. *)
Definition keeps_to_chat (request : Request) : bool :=
  match request with
  | POST_profile _ _ => false
  | POST_simulations_run _ => false
  | _ => true
  end.

(** The send-message calls among the requests whose content is a
    non-empty string, in request order. *)
Fixpoint accepted_sends (requests : list Request) : list (ChatEnv * string) :=
  match requests with
  | [] => []
  | POST_chat_message env (Some (String c content)) :: requests =>
      (env, String c content) :: accepted_sends requests
  | _ :: requests => accepted_sends requests
  end.

(** No texting-tone value of the profile is 0. *)
Definition tone_nonzero (profile : UserProfile.t) : Prop :=
  TextingTone.positivity (UserProfile.textingTone profile) <> 0
  /\ TextingTone.playfulness (UserProfile.textingTone profile) <> 0
  /\ TextingTone.responseLength (UserProfile.textingTone profile) <> 0.

Definition stored_tone_nonzero (storage : Storage.t) : Prop :=
  forall profile, Storage.getProfile storage = Some profile ->
                  tone_nonzero profile.

End ServerSpec.

(* ================================================================== *)
(** * The aggregation as the specification words it *)
(* ================================================================== *)

Module Spec.
Import SimulationResult.

(** The distinct labels of a list, in the order in which each is first
    seen. *)
Fixpoint first_seen (l : list string) : list string :=
  match l with
  | [] => []
  | x :: l' => x :: filter (fun y => negb (String.eqb y x)) (first_seen l')
  end.

Definition sum (l : list Z) : Z := fold_right Z.add 0 l.

(** Arithmetic mean of a list of scores. *)
Definition mean (l : list Z) : Q :=
  inject_Z (sum l) / inject_Z (Z.of_nat (List.length l)).

(** [output] is [input] sorted in descending order of [key] by a stable
    sort: a rearrangement of [input], keys never increasing, and the
    entries sharing any one key value in the order they had in
    [input]. *)
Definition stable_desc {A K} (le : K -> K -> Prop) (eqb : K -> K -> bool)
           (key : A -> K) (input output : list A) : Prop :=
  Permutation output input
  /\ StronglySorted (fun a b => le (key b) (key a)) output
  /\ forall v, filter (fun a => eqb (key a) v) output
               = filter (fun a => eqb (key a) v) input.

(** The scores of the records that carry a given archetype label. *)
Definition scores_of (archetype : string)
           (simulations : list SimulationResult.t) : list Z :=
  map compatibility_score
      (filter (fun sim => String.eqb (match_archetype sim) archetype)
              simulations).

(** One group per archetype label, with the mean of its scores. *)
Definition archetype_means (simulations : list SimulationResult.t)
  : list (string * Q) :=
  map (fun a => (a, mean (scores_of a simulations)))
      (first_seen (map match_archetype simulations)).

(** The issue strings of the records that have one. *)
Fixpoint present_issues (simulations : list SimulationResult.t)
  : list string :=
  match simulations with
  | [] => []
  | sim :: rest =>
      match potential_issue sim with
      | Some issue => issue :: present_issues rest
      | None => present_issues rest
      end
  end.

(** How many records report a given issue string. *)
Definition frequency (issue : string)
           (simulations : list SimulationResult.t) : Z :=
  Z.of_nat (count_occ string_dec (present_issues simulations) issue).

Definition issue_counts (simulations : list SimulationResult.t)
  : list (string * Z) :=
  map (fun issue => (issue, frequency issue simulations))
      (first_seen (present_issues simulations)).

(** [pat] occurs inside [s]. *)
Definition contains (s pat : string) : Prop :=
  exists pre post, s = (pre ++ pat ++ post)%string.

(** The coaching rule list: each rule contributes its tip or nothing. *)
Definition tip_if (condition : bool) (tip : string) : list string :=
  if condition then [tip] else [].

Definition band_tip (avg : Z) : string :=
  if 75 <=? avg then Simulations.tip_score_high
  else if 60 <=? avg then Simulations.tip_score_mid
  else Simulations.tip_score_low.

Definition coaching_rules (positivity playfulness responseLength : Z)
           (commonIssues : list string) (avg : Z) : list string :=
  [band_tip avg]
  ++ tip_if (positivity <? 50) Simulations.tip_positivity
  ++ tip_if (playfulness <? 40) Simulations.tip_playfulness_low
  ++ tip_if (80 <? playfulness) Simulations.tip_playfulness_high
  ++ tip_if (responseLength <? 30) Simulations.tip_length_low
  ++ tip_if (80 <? responseLength) Simulations.tip_length_high
  ++ tip_if (existsb (fun issue => Js.includes issue "question")
                     commonIssues)
            Simulations.tip_questions
  ++ tip_if (existsb (fun issue => Js.includes issue "eager"
                                   || Js.includes issue "enthusias")
                     commonIssues)
            Simulations.tip_breathe.

End Spec.

(* ================================================================== *)
(** * Sample data *)
(* ================================================================== *)

Module Sample.

Definition tone : TextingTone.t := TextingTone.mk 70 30 85.

Definition profile : UserProfile.t :=
  UserProfile.mk "id-1" "Alex" "25-34" "non-binary" "everyone"
                 "I like hiking and board games." "long-term" tone
                 (Some 3) [] 1700000000000.

(** A profile request whose sliders read 0, (absent) and 85. *)
Definition toneBody : Server.ToneBody := Server.mkTone (Some 0) None (Some 85).

Definition body : Server.ProfileBody :=
  Server.mkBody "Alex" "25-34" "non-binary" "everyone"
                "I like hiking and board games." "long-term"
                (Some toneBody) (Some 3).

(** The same request without a [textingTone] object. *)
Definition bodyWithoutTone : Server.ProfileBody :=
  Server.mkBody "Alex" "25-34" "non-binary" "everyone"
                "I like hiking and board games." "long-term" None (Some 3).

Definition stamps : Server.Stamp * Server.Stamp :=
  (Server.mkStamp "uuid-1" 1700000000000,
   Server.mkStamp "uuid-2" 1700000000001).

Definition chatEnv : Server.ChatEnv :=
  Server.mkChatEnv (Server.mkStamp "uuid-3" 1700000001000)
                   "Tell me more about that."
                   (Server.mkStamp "uuid-4" 1700000002000).

Definition firstUpload : list Server.File :=
  [Server.mkFile "me.jpg" "image/jpeg" 204800 "3f2a9c"].

Definition secondUpload : list Server.File :=
  [Server.mkFile "beach.png" "image/png" 409600 "77b01e";
   Server.mkFile "hike.webp" "image/webp" 102400 "c4d2aa"].

(** A small batch: two labels tie on the mean 80, one issue is reported
    twice, one record has no issue. *)
Definition batch : list SimulationResult.t :=
  [ SimulationResult.mk "Thoughtful Introvert" "Hi!" "warm" 70
                        (Some "asks few questions");
    SimulationResult.mk "Social Butterfly" "Hey!" "warm" 80 None;
    SimulationResult.mk "Outdoor Enthusiast" "Hello!" "warm" 65
                        (Some "too brief");
    SimulationResult.mk "Thoughtful Introvert" "Hi again!" "warm" 90
                        (Some "too brief") ].

(** The store after onboarding, and after onboarding and one upload. *)
Definition onboarded : Storage.t :=
  Server.serve [Server.POST_profile stamps body] Storage.initial.

Definition uploadedOnce : Storage.t :=
  Server.serve [Server.POST_photos (1 # 2) firstUpload] onboarded.

(** The store of a server that has been used before: a profile and three
    messages. *)
Definition usedBefore : Storage.t :=
  Server.serve [ServerSpec.send (chatEnv, "first time here")] onboarded.

(** A session after onboarding: two accepted messages among refused ones
    and other requests. *)
Definition session : list Server.Request :=
  [ ServerSpec.send (chatEnv, "hello");
    Server.GET_chat_history;
    Server.POST_chat_message chatEnv (Some EmptyString);
    Server.POST_photos (1 # 2) firstUpload;
    Server.POST_chat_message chatEnv None;
    ServerSpec.send (chatEnv, "any tips?");
    Server.GET_simulations_results ].

End Sample.

(* ================================================================== *)
(** * Further JavaScript primitives *)
(* ================================================================== *)

Module JsArray.

(** [arr.includes(x)] on an array of strings. *)
Definition includes (arr : list string) (x : string) : bool :=
  existsb (String.eqb x) arr.

(** [set.add(x)] and [new Set(arr)]: a [Set] keeps its members in the order
    in which each was first added; [Array.from(set)] lists them in that
    order. *)
Definition Set_add (set : list string) (x : string) : list string :=
  if includes set x then set else set ++ [x].

Definition Set_of (arr : list string) : list string :=
  fold_left Set_add arr [].

(** [arr.slice(-n)]: the last [n] elements, or all of them when there are
    fewer. *)
Definition slice_last {A} (n : nat) (arr : list A) : list A :=
  skipn (List.length arr - n) arr.

(** [arr[arr.length - 1]]; [None] is [undefined]. *)
Definition last_element {A} (arr : list A) : option A :=
  nth_error arr (List.length arr - 1).

End JsArray.

(* ================================================================== *)
(** * photoVerification.ts: file validation *)
(* ================================================================== *)

Module PhotoFile.

Definition ALLOWED_MIME_TYPES : list string :=
  ["image/jpeg"; "image/png"; "image/jpg"; "image/webp"].

Definition MAX_FILE_SIZE : Z := 5 * 1024 * 1024.

(** [{ valid: boolean; error?: string }] *)
Record Validation := mkValidation {
  valid : bool;
  error : option string
}.

Definition validatePhotoFile (file : Server.File) : Validation :=
  (* Check file type *)
  if negb (JsArray.includes ALLOWED_MIME_TYPES (Server.mimetype file)) then
    mkValidation false
      (Some "Invalid file type. Please upload JPEG, PNG, or WebP images.")
  (* Check file size *)
  else if Server.size file >? MAX_FILE_SIZE then
    mkValidation false (Some "File too large. Maximum size is 5MB.")
  else
    mkValidation true None.

End PhotoFile.

(* ================================================================== *)
(** * llm.ts: the language-model client *)
(* ================================================================== *)

Module LlmClient.

Inductive Role := system | user | assistant.

Record LLMMessage := mkMessage {
  role : Role;
  content : string
}.

(** What the request to the hosted model does inside the [try] block:
    it yields a response whose first text block is [text] ([None] when the
    response has no text block), or something in the block throws. *)
Inductive ApiOutcome :=
| Replied (text : option string)
| Threw.

(** The double-quote character. *)
Definition dq : string := String "034"%char EmptyString.

Definition reply_vibe : string :=
  "Based on your texting style, you come across as friendly and approachable. You tend to use positive language and seem genuinely interested in getting to know people. Your responses are thoughtful but not overly long, which keeps conversations flowing naturally.".

(** [JSON.stringify] of the fixed scenario object. *)
Definition reply_scenario : string :=
  ("{" ++ dq ++ "match_archetype" ++ dq ++ ":"
       ++ dq ++ "Adventurous Extrovert" ++ dq
   ++ "," ++ dq ++ "match_initial_message" ++ dq ++ ":"
       ++ dq ++ "Hey! I saw you mentioned hiking in your profile. What's been your favorite trail lately?" ++ dq
   ++ "," ++ dq ++ "user_expected_reply" ++ dq ++ ":"
       ++ dq ++ "Likely positive and enthusiastic, probably sharing a recent experience" ++ dq
   ++ "," ++ dq ++ "compatibility_score" ++ dq ++ ":78"
   ++ "," ++ dq ++ "potential_issue" ++ dq ++ ":"
       ++ dq ++ "May need to balance enthusiasm with asking follow-up questions to show genuine interest" ++ dq
   ++ "}")%string.

Definition reply_tips : string :=
  ("Here are some personalized tips:
1. Lead with specific details - instead of " ++ dq ++ "hi how are you" ++ dq ++ ", try referencing something from their profile
2. Ask open-ended questions that invite storytelling
3. Balance sharing about yourself with showing curiosity about them
4. Use your natural enthusiasm - it's one of your strengths!")%string.

Definition reply_check_in : string :=
  "I'd love to check in with you! How has your dating experience been lately? Have you noticed any patterns in your conversations, or is there anything you'd like to work on together?".

Definition reply_default : string :=
  "That's interesting! Tell me more about that. I'm here to help you become the best version of yourself in the dating world. What would you like to focus on today?".

(** The ladder of the [catch] branch, on the lower-cased content of the
    last message. *)
Definition fallback (lastMessage : string) : string :=
  if Js.includes lastMessage "analyze" && Js.includes lastMessage "vibe" then
    reply_vibe
  else if Js.includes lastMessage "simulation"
          || Js.includes lastMessage "scenario" then
    reply_scenario
  else if Js.includes lastMessage "coaching"
          || Js.includes lastMessage "tips" then
    reply_tips
  else if Js.includes lastMessage "check in"
          || Js.includes lastMessage "feeling" then
    reply_check_in
  else
    reply_default.

Section CallLLM.
(** [s.toLowerCase()], a primitive of the language. *)
Variable toLowerCase : string -> string.

(** [callLLM(messages)]: [Some] is the string the promise resolves to,
    [None] a rejected promise (reading [content] of [undefined] inside the
    [catch] branch, which happens for an empty array only). *)
Definition callLLM (api : ApiOutcome) (messages : list LLMMessage)
  : option string :=
  match api with
  | Replied (Some text) => Some text
  | Replied None => Some EmptyString
  | Threw =>
      match JsArray.last_element messages with
      | None => None
      | Some message => Some (fallback (toLowerCase (content message)))
      end
  end.
End CallLLM.

(** The [messages] array the chat handler passes to [callLLM]; the text of
    the system prompt is an input. *)
Definition chatMessages (systemPrompt : string)
           (chatHistory : list ChatMessage.t) : list LLMMessage :=
  let recentMessages := JsArray.slice_last 10 chatHistory in
  mkMessage system systemPrompt
  :: map (fun msg =>
            mkMessage (match ChatMessage.sender msg with
                       | ChatMessage.user => user
                       | ChatMessage.agent => assistant
                       end)
                      (ChatMessage.content msg))
         recentMessages.

End LlmClient.

(* ================================================================== *)
(** * simulations.ts: strengths and improvements *)
(* ================================================================== *)

Module VibeSummary.

Definition strength_positive := "Positive and upbeat communication style".
Definition strength_humor := "Good sense of humor and playfulness".
Definition strength_clear := "Clear about who you are and what you want".
Definition strength_compatible :=
  "Strong overall compatibility with diverse personality types".
Definition strength_authentic := "Authentic and genuine in your interactions".
Definition strength_balanced :=
  "Well-balanced message length - not too brief, not too long".

Section IdentifyStrengths.
(** [s.length], a primitive of the language (UTF-16 code units). *)
Variable length_of : string -> Z.

Definition identifyStrengths (profile : UserProfile.t)
           (vibeAnalysis : Llm.VibeAnalysis) (avgCompatibility : Z)
  : list string :=
  let tone := UserProfile.textingTone profile in
  let strengths : list string := [] in
  let strengths :=
    if TextingTone.positivity tone >=? 70
    then Js.push strengths strength_positive else strengths in
  let strengths :=
    if TextingTone.playfulness tone >=? 60
    then Js.push strengths strength_humor else strengths in
  let strengths :=
    if length_of (UserProfile.bio profile) >? 50
    then Js.push strengths strength_clear else strengths in
  let strengths :=
    if avgCompatibility >=? 70
    then Js.push strengths strength_compatible else strengths in
  let strengths :=
    if JsArray.includes (Llm.key_traits vibeAnalysis) "authentic"
    then Js.push strengths strength_authentic else strengths in
  let strengths :=
    if (TextingTone.responseLength tone >=? 40)
       && (TextingTone.responseLength tone <=? 70)
    then Js.push strengths strength_balanced else strengths in
  if (0 <? List.length strengths)%nat then strengths
  else ["Open to new connections"; "Willing to put yourself out there"].
End IdentifyStrengths.

Definition improve_questions :=
  "Ask more engaging questions to show genuine curiosity".
Definition improve_pace :=
  "Let conversations develop naturally without rushing".
Definition improve_details :=
  "Share more details to give matches something to respond to".
Definition improve_rapport :=
  "Build rapport gradually rather than over-sharing early".

(** One turn of the [forEach] of [identifyImprovements]. *)
Definition improvements_step (improvements : list string) (issue : string)
  : list string :=
  if Js.includes issue "question" then Js.push improvements improve_questions
  else if Js.includes issue "eager" then Js.push improvements improve_pace
  else if Js.includes issue "brief" then Js.push improvements improve_details
  else if Js.includes issue "sharing" then
    Js.push improvements improve_rapport
  else improvements.

Definition identifyImprovements (commonIssues : list string)
           (vibeAnalysis : Llm.VibeAnalysis) : list string :=
  let improvements := fold_left improvements_step commonIssues [] in
  (* Remove duplicates *)
  Js.slice0 4 (JsArray.Set_of improvements).

End VibeSummary.

(* ================================================================== *)
(** * Shapes of the chat transcript *)
(* ================================================================== *)

Module Transcript.

Definition from_agent (message : ChatMessage.t) : bool :=
  match ChatMessage.sender message with
  | ChatMessage.agent => true
  | ChatMessage.user => false
  end.

(** Every message of the user is directly followed by a message of the
    agent. *)
Fixpoint answered (history : list ChatMessage.t) : bool :=
  match history with
  | [] => true
  | message :: rest =>
      (from_agent message
       || match rest with
          | [] => false
          | next :: _ => from_agent next
          end)
      && answered rest
  end.

(** What one request may add to the chat history. *)
Definition history_step (storage storage' : Storage.t) : Prop :=
  exists added,
    Storage.getChatHistory storage' = Storage.getChatHistory storage ++ added
    /\ Transcript.answered added = true
    /\ (Storage.getProfile storage = None ->
        forall first, hd_error added = Some first ->
                      Transcript.from_agent first = true)
    /\ (Storage.getProfile storage' = None ->
        added = []
        /\ Storage.getSimulationResults storage'
           = Storage.getSimulationResults storage)
    /\ (Storage.getProfile storage = None -> added = [] ->
        Storage.getProfile storage' = None).

(** [distinct l]: no string occurs twice in [l]. *)
Fixpoint distinct (l : list string) : bool :=
  match l with
  | [] => true
  | x :: rest => negb (existsb (String.eqb x) rest) && distinct rest
  end.

End Transcript.

(* ================================================================== *)
(** * Facts about the JavaScript primitives *)
(* ================================================================== *)

Section RandomDraw.
Variable r : Q.
Hypothesis r_range : (0 <= r < 1)%Q.

(** [Math.floor(Math.random() * n)] is one of [0 .. n-1]. *)
Lemma floor_random_range (n : Z) :
  0 < n -> 0 <= Js.Math_floor (r * inject_Z n) < n.
Proof.
  intros Hn. unfold Js.Math_floor.
  assert (Hq : (inject_Z 0 < inject_Z n)%Q) by (rewrite <- Zlt_Qlt; exact Hn).
  change (inject_Z 0) with 0%Q in Hq.
  split.
  - change 0 with (Qfloor 0). apply Qfloor_resp_le. nra.
  - rewrite Zlt_Qlt.
    apply Qle_lt_trans with (r * inject_Z n)%Q; [apply Qfloor_le | nra].
Qed.
End RandomDraw.

(* ================================================================== *)
(** * Photo verification *)
(* ================================================================== *)

Import PhotoVerification.

Lemma mockConfidence_range (r : Q) :
  (0 <= r < 1)%Q -> 80 <= 80 + Js.Math_floor (r * 15) < 95.
Proof.
  intros Hr. pose proof (@floor_random_range r Hr 15 ltac:(lia)) as H.
  change (inject_Z 15) with 15%Q in H. lia.
Qed.

(** C5. For every list of stored photo filenames: no photo gives status
    failed with confidence 0; exactly one photo gives status success with
    confidence 75; two or more photos give the confidence
    [80 + floor(random * 15)], which lies in [80,95), and the status is the
    threshold classification of that confidence (success from 85,
    inconclusive from 70, failed below). *)
Theorem C5_photo_verification (r : Q) (photoPaths : list string) :
  (0 <= r < 1)%Q ->
  let v := analyzePhotos r photoPaths in
  (List.length photoPaths = 0%nat -> status v = failed /\ confidence v = 0) /\
  (List.length photoPaths = 1%nat -> status v = success /\ confidence v = 75) /\
  ((2 <= List.length photoPaths)%nat ->
     confidence v = 80 + Js.Math_floor (r * 15) /\
     80 <= confidence v < 95 /\
     status v = classify (confidence v)).
Proof.
  intros Hr v. subst v. unfold analyzePhotos, classify.
  pose proof (mockConfidence_range Hr) as Hc.
  destruct photoPaths as [|p [|q ps]]; cbn [List.length Nat.eqb].
  - repeat split; intros; try lia.
  - repeat split; intros; try lia.
  - split; [intros; discriminate|]. split; [intros; discriminate|].
    intros _. cbv zeta.
    set (c := 80 + Js.Math_floor (r * 15)) in *.
    destruct (c >=? 85) eqn:E1; [|destruct (c >=? 70) eqn:E2];
      cbn [status confidence]; rewrite ?E1, ?E2; auto.
Qed.

Lemma C5_photo_verification_witness :
  (0 <= 1 # 2 < 1)%Q /\
  let v := analyzePhotos (1 # 2) ["a.jpg"; "b.jpg"] in
  (List.length ["a.jpg"; "b.jpg"] = 0%nat -> status v = failed /\ confidence v = 0) /\
  (List.length ["a.jpg"; "b.jpg"] = 1%nat -> status v = success /\ confidence v = 75) /\
  ((2 <= List.length ["a.jpg"; "b.jpg"])%nat ->
     confidence v = 80 + Js.Math_floor ((1 # 2) * 15) /\
     80 <= confidence v < 95 /\
     status v = classify (confidence v)).
Proof.
  assert (H : (0 <= 1 # 2 < 1)%Q) by (split; [discriminate | reflexivity]).
  split; [exact H|].
  exact (@C5_photo_verification (1 # 2) ["a.jpg"; "b.jpg"] H).
Defined.

(** C9. With two or more photo filenames the status is never failed: the
    drawn confidence is at least 80, so the result is success or
    inconclusive. *)
Theorem C9_multi_photo_never_failed (r : Q) (photoPaths : list string) :
  (0 <= r < 1)%Q ->
  (2 <= List.length photoPaths)%nat ->
  let v := analyzePhotos r photoPaths in
  80 <= confidence v /\
  status v <> failed /\
  (status v = success \/ status v = inconclusive).
Proof.
  intros Hr Hlen v. subst v.
  pose proof (mockConfidence_range Hr) as Hc.
  destruct photoPaths as [|p [|q ps]]; cbn [List.length] in Hlen; try lia.
  unfold analyzePhotos; cbn [List.length Nat.eqb]; cbv zeta.
  set (c := 80 + Js.Math_floor (r * 15)) in *.
  destruct (c >=? 85) eqn:E1; [|destruct (c >=? 70) eqn:E2];
    cbn [status confidence].
  - repeat split; try lia; try discriminate. now left.
  - repeat split; try lia; try discriminate. now right.
  - lia.
Qed.

Lemma C9_multi_photo_never_failed_witness :
  (0 <= 0 < 1)%Q /\ (2 <= List.length ["a.jpg"; "b.jpg"; "c.jpg"])%nat /\
  let v := analyzePhotos 0 ["a.jpg"; "b.jpg"; "c.jpg"] in
  80 <= confidence v /\
  status v <> failed /\
  (status v = success \/ status v = inconclusive).
Proof.
  assert (H : (0 <= 0 < 1)%Q) by (split; [discriminate | reflexivity]).
  assert (L : (2 <= List.length ["a.jpg"; "b.jpg"; "c.jpg"])%nat) by (simpl; lia).
  split; [exact H|]. split; [exact L|].
  exact (@C9_multi_photo_never_failed 0 ["a.jpg"; "b.jpg"; "c.jpg"] H L).
Defined.

(* ================================================================== *)
(** * The stable sort *)
(* ================================================================== *)

Section SortFacts.
Variable A : Type.
Variable cmp : A -> A -> comparison.

(** What the code's comparators provide: they come from an order on a
    numeric key. *)
Hypothesis cmp_gt_lt : forall a b, cmp a b = Gt -> cmp b a = Lt.
Hypothesis cmp_le_trans :
  forall a b c, cmp a b <> Gt -> cmp b c <> Gt -> cmp a c <> Gt.
Hypothesis cmp_eq_eucl :
  forall a b c, cmp a b = Eq -> cmp a c = Eq -> cmp b c = Eq.

Lemma insert_perm x l : Permutation (Js.insert cmp x l) (x :: l).
Proof.
  induction l as [|y l IH]; simpl; [reflexivity|].
  destruct (cmp x y); try reflexivity.
  rewrite IH. apply perm_swap.
Qed.

Lemma sort_perm l : Permutation (Js.sort cmp l) l.
Proof.
  induction l as [|x l IH]; simpl; [constructor|].
  rewrite insert_perm. now constructor.
Qed.

Lemma insert_sorted x l :
  StronglySorted (Js.may_precede cmp) l -> StronglySorted (Js.may_precede cmp) (Js.insert cmp x l).
Proof.
  induction 1 as [|y l Hl IH Hy]; simpl.
  - repeat constructor.
  - destruct (cmp x y) eqn:E.
    + constructor; [now constructor|].
      constructor; [unfold Js.may_precede; congruence|].
      rewrite Forall_forall in *. intros z Hz.
      apply cmp_le_trans with y; [congruence | now apply Hy].
    + constructor; [now constructor|].
      constructor; [unfold Js.may_precede; congruence|].
      rewrite Forall_forall in *. intros z Hz.
      apply cmp_le_trans with y; [congruence | now apply Hy].
    + constructor; [exact IH|].
      rewrite Forall_forall in *. intros z Hz.
      apply (Permutation_in _ (insert_perm x l)) in Hz.
      destruct Hz as [<-|Hz]; [|now apply Hy].
      unfold Js.may_precede. rewrite (cmp_gt_lt E). discriminate.
Qed.

Lemma sort_sorted l : StronglySorted (Js.may_precede cmp) (Js.sort cmp l).
Proof.
  induction l as [|x l IH]; simpl; [constructor|].
  now apply insert_sorted.
Qed.

(** Stability: the elements tied with any [z] come out in the order in
    which they went in. *)
Lemma insert_stable z x l :
  filter (Js.tie cmp z) (Js.insert cmp x l) = filter (Js.tie cmp z) (x :: l).
Proof.
  induction l as [|y l IH]; [reflexivity|].
  cbn [Js.insert]. destruct (cmp x y) eqn:E; try reflexivity.
  cbn [filter] in *. rewrite IH.
  destruct (Js.tie cmp z x) eqn:Tx, (Js.tie cmp z y) eqn:Ty; try reflexivity.
  exfalso. unfold Js.tie in Tx, Ty.
  destruct (cmp z x) eqn:Ex; try discriminate.
  destruct (cmp z y) eqn:Ey; try discriminate.
  rewrite (cmp_eq_eucl Ex Ey) in E. discriminate.
Qed.

Lemma sort_stable z l :
  filter (Js.tie cmp z) (Js.sort cmp l) = filter (Js.tie cmp z) l.
Proof.
  induction l as [|x l IH]; [reflexivity|].
  cbn [Js.sort]. rewrite insert_stable. cbn [filter]. now rewrite IH.
Qed.
End SortFacts.

Lemma In_firstn {A} (x : A) n l : In x (firstn n l) -> In x l.
Proof.
  intros H. rewrite <- (firstn_skipn n l). apply in_or_app. now left.
Qed.

(** In a sorted list every element of a prefix is related to every element
    behind the prefix. *)
Lemma StronglySorted_prefix {A} (R : A -> A -> Prop) n l x y :
  StronglySorted R l -> In x (firstn n l) -> In y (skipn n l) -> R x y.
Proof.
  revert n. induction l as [|a l IH]; intros n Hs Hx Hy.
  - destruct n; contradiction.
  - destruct n as [|n]; [contradiction|].
    apply StronglySorted_inv in Hs. destruct Hs as [Hs Ha].
    cbn [firstn skipn] in Hx, Hy. destruct Hx as [<-|Hx].
    + rewrite Forall_forall in Ha. apply Ha.
      rewrite <- (firstn_skipn n l). apply in_or_app. now right.
    + now apply (IH n).
Qed.

(* ================================================================== *)
(** * Maps in insertion order and grouping by label *)
(* ================================================================== *)

Section MapFacts.
Variable V : Type.
Implicit Types (m : Js.Map V) (k : string) (v : V).

Lemma Map_get_set_same m k v : Js.Map_get (Js.Map_set m k v) k = Some v.
Proof.
  induction m as [|[k' v'] m IH]; simpl.
  - now rewrite String.eqb_refl.
  - destruct (String.eqb k' k) eqn:E; simpl; rewrite E; auto.
Qed.

Lemma Map_set_set m k v v' :
  Js.Map_set (Js.Map_set m k v) k v' = Js.Map_set m k v'.
Proof.
  induction m as [|[k' w] m IH]; simpl.
  - now rewrite String.eqb_refl.
  - destruct (String.eqb k' k) eqn:E; simpl; rewrite E; congruence.
Qed.

Variable g : string -> V.

Lemma Map_get_table keys k :
  Js.Map_get (map (fun a => (a, g a)) keys) k
  = if in_dec string_dec k keys then Some (g k) else None.
Proof.
  induction keys as [|a keys IH]; [reflexivity|].
  cbn [map Js.Map_get]. destruct (String.eqb_spec a k) as [->|Hak].
  - destruct (in_dec string_dec k (k :: keys)) as [_|n]; [reflexivity|].
    exfalso. apply n. now left.
  - rewrite IH.
    destruct (in_dec string_dec k keys) as [i|n],
             (in_dec string_dec k (a :: keys)) as [i'|n']; try reflexivity.
    + exfalso. apply n'. now right.
    + exfalso. destruct i' as [e|i']; [now apply Hak | now apply n].
Qed.

Lemma Map_set_table_new keys k v :
  ~ In k keys ->
  Js.Map_set (map (fun a => (a, g a)) keys) k v
  = map (fun a => (a, g a)) keys ++ [(k, v)].
Proof.
  induction keys as [|a keys IH]; intros Hk; [reflexivity|].
  cbn [map Js.Map_set app]. destruct (String.eqb_spec a k) as [->|Hak].
  - exfalso. apply Hk. now left.
  - rewrite IH; [reflexivity|]. intros Hin. apply Hk. now right.
Qed.

Lemma Map_set_table_old keys k v :
  NoDup keys -> In k keys ->
  Js.Map_set (map (fun a => (a, g a)) keys) k v
  = map (fun a => (a, if String.eqb a k then v else g a)) keys.
Proof.
  induction keys as [|a keys IH]; intros Hnd Hin; [contradiction|].
  inversion Hnd as [|? ? Hnotin Hnd']; subst.
  cbn [map Js.Map_set]. destruct (String.eqb_spec a k) as [->|Hak].
  - f_equal. apply map_ext_in. intros b Hb.
    destruct (String.eqb_spec b k) as [->|_]; [contradiction | reflexivity].
  - f_equal. apply IH; [assumption|].
    destruct Hin as [e|Hin]; [contradiction | assumption].
Qed.
End MapFacts.

Section FirstSeen.
Import Spec.

Lemma first_seen_In x l : In x (first_seen l) <-> In x l.
Proof.
  induction l as [|a l IH]; simpl; [tauto|].
  rewrite filter_In, IH.
  destruct (String.eqb_spec x a) as [->|Hxa]; simpl.
  - intuition congruence.
  - intuition congruence.
Qed.

Lemma first_seen_NoDup l : NoDup (first_seen l).
Proof.
  induction l as [|a l IH]; simpl; constructor.
  - rewrite filter_In. intros [_ H]. now rewrite String.eqb_refl in H.
  - now apply NoDup_filter.
Qed.

Lemma first_seen_snoc l k :
  first_seen (l ++ [k])
  = if in_dec string_dec k l then first_seen l else first_seen l ++ [k].
Proof.
  induction l as [|a l IH]; [reflexivity|].
  cbn [app first_seen]. rewrite IH.
  destruct (String.eqb_spec k a) as [->|Hka].
  - destruct (in_dec string_dec a (a :: l)) as [_|n];
      [|exfalso; apply n; now left].
    destruct (in_dec string_dec a l); [reflexivity|].
    rewrite filter_app. cbn [filter]. rewrite String.eqb_refl.
    cbn [negb]. now rewrite app_nil_r.
  - destruct (in_dec string_dec k l) as [i|n],
             (in_dec string_dec k (a :: l)) as [i'|n']; try reflexivity.
    + exfalso. apply n'. now right.
    + exfalso. destruct i' as [e|i']; [congruence | now apply n].
    + rewrite filter_app. cbn [filter].
      destruct (String.eqb_spec k a); [contradiction|]. reflexivity.
Qed.

(** The list has as many entries as there are distinct labels. *)
Lemma first_seen_length l :
  List.length (first_seen l) = List.length (nodup string_dec l).
Proof.
  apply Permutation_length, NoDup_Permutation.
  - apply first_seen_NoDup.
  - apply NoDup_nodup.
  - intros x. now rewrite first_seen_In, nodup_In.
Qed.
End FirstSeen.

Section Grouping.
Variables T V : Type.
Variable kf : T -> string.
Variable upd : option V -> T -> V.
Variable g : list T -> string -> V.

Hypothesis g_hit : forall l t,
  g (l ++ [t]) (kf t)
  = upd (if in_dec string_dec (kf t) (map kf l)
         then Some (g l (kf t)) else None) t.
Hypothesis g_miss : forall l t k, k <> kf t -> g (l ++ [t]) k = g l k.

(** Folding [Map_accumulate] over the items leaves one entry per label, in
    first-seen order, holding the value [g] assigns to the label. *)
Lemma fold_accumulate l :
  fold_left (Js.Map_accumulate kf upd) l []
  = map (fun k => (k, g l k)) (Spec.first_seen (map kf l)).
Proof.
  induction l as [|t l IH] using rev_ind; [reflexivity|].
  rewrite fold_left_app. cbn [fold_left]. rewrite IH.
  unfold Js.Map_accumulate.
  rewrite Map_get_table, map_app. cbn [map]. rewrite first_seen_snoc.
  pose proof (g_hit l t) as Hhit.
  destruct (in_dec string_dec (kf t) (map kf l)) as [i|n].
  - destruct (in_dec string_dec (kf t) (Spec.first_seen (map kf l)))
      as [i'|n']; [|exfalso; apply n'; now apply first_seen_In].
    rewrite Map_set_table_old;
      [|apply first_seen_NoDup | assumption].
    apply map_ext_in. intros a _.
    destruct (String.eqb_spec a (kf t)) as [->|Ha].
    + now rewrite Hhit.
    + now rewrite g_miss.
  - destruct (in_dec string_dec (kf t) (Spec.first_seen (map kf l)))
      as [i'|n']; [exfalso; apply n; now apply first_seen_In|].
    rewrite Map_set_table_new by assumption.
    rewrite map_app. cbn [map]. rewrite Hhit. f_equal.
    apply map_ext_in. intros a Ha. rewrite g_miss; [reflexivity|].
    intros ->. apply n'. exact Ha.
Qed.
End Grouping.

(* ================================================================== *)
(** * The two comparators of the aggregator *)
(* ================================================================== *)

Lemma StronglySorted_weaken {A} (R S : A -> A -> Prop) l :
  (forall a b, R a b -> S a b) -> StronglySorted R l -> StronglySorted S l.
Proof.
  intros HRS. induction 1 as [|a l Hl IH Ha]; constructor; auto.
  rewrite Forall_forall in *. auto.
Qed.

Lemma byAvgScoreDesc_compare a b :
  Simulations.byAvgScoreDesc a b = (snd b ?= snd a)%Q.
Proof.
  unfold Simulations.byAvgScoreDesc, Js.signQ. symmetry.
  destruct (Qcompare_spec (snd b - snd a) 0) as [H|H|H].
  - rewrite <- Qeq_alt. lra.
  - rewrite <- Qlt_alt. lra.
  - rewrite <- Qgt_alt. lra.
Qed.

Lemma byCountDesc_compare a b :
  Simulations.byCountDesc a b = (snd b ?= snd a).
Proof.
  unfold Simulations.byCountDesc, Js.signZ. symmetry. apply Z.compare_sub.
Qed.

Lemma sort_byAvgScoreDesc (l : list (string * Q)) :
  Spec.stable_desc Qle Qeq_bool snd l (Js.sort Simulations.byAvgScoreDesc l).
Proof.
  set (cmp := Simulations.byAvgScoreDesc).
  assert (Hgt : forall a b, cmp a b = Gt -> cmp b a = Lt).
  { intros a b. unfold cmp. rewrite !byAvgScoreDesc_compare.
    rewrite <- Qgt_alt, <- Qlt_alt. auto. }
  assert (Htr : forall a b c, cmp a b <> Gt -> cmp b c <> Gt -> cmp a c <> Gt).
  { intros a b c. unfold cmp. rewrite !byAvgScoreDesc_compare.
    rewrite <- !Qle_alt. intros H1 H2. lra. }
  assert (Heq : forall a b c, cmp a b = Eq -> cmp a c = Eq -> cmp b c = Eq).
  { intros a b c. unfold cmp. rewrite !byAvgScoreDesc_compare.
    rewrite <- !Qeq_alt. intros H1 H2. lra. }
  assert (Htie : forall v a,
             Qeq_bool (snd a) v = Js.tie cmp (EmptyString, v) a).
  { intros v a. unfold Js.tie, cmp. rewrite byAvgScoreDesc_compare. cbn [snd].
    destruct (Qcompare_spec (snd a) v) as [H|H|H].
    - now apply Qeq_bool_iff.
    - destruct (Qeq_bool (snd a) v) eqn:E; [|reflexivity].
      apply Qeq_bool_iff in E. lra.
    - destruct (Qeq_bool (snd a) v) eqn:E; [|reflexivity].
      apply Qeq_bool_iff in E. lra. }
  split; [apply sort_perm|]. split.
  - apply StronglySorted_weaken with (R := Js.may_precede cmp).
    + intros a b. unfold Js.may_precede, cmp.
      rewrite byAvgScoreDesc_compare. now rewrite <- Qle_alt.
    + now apply sort_sorted.
  - intros v. rewrite !(filter_ext _ _ (Htie v)). now apply sort_stable.
Qed.

Lemma sort_byCountDesc (l : list (string * Z)) :
  Spec.stable_desc Z.le Z.eqb snd l (Js.sort Simulations.byCountDesc l).
Proof.
  set (cmp := Simulations.byCountDesc).
  assert (Hgt : forall a b, cmp a b = Gt -> cmp b a = Lt).
  { intros a b. unfold cmp. rewrite !byCountDesc_compare.
    rewrite Z.compare_gt_iff, Z.compare_lt_iff. auto. }
  assert (Htr : forall a b c, cmp a b <> Gt -> cmp b c <> Gt -> cmp a c <> Gt).
  { intros a b c. unfold cmp. rewrite !byCountDesc_compare.
    rewrite !Z.compare_le_iff. lia. }
  assert (Heq : forall a b c, cmp a b = Eq -> cmp a c = Eq -> cmp b c = Eq).
  { intros a b c. unfold cmp. rewrite !byCountDesc_compare.
    rewrite !Z.compare_eq_iff. lia. }
  assert (Htie : forall v a, (snd a =? v) = Js.tie cmp (EmptyString, v) a).
  { intros v a. unfold Js.tie, cmp. rewrite byCountDesc_compare. cbn [snd].
    destruct (Z.compare_spec (snd a) v), (Z.eqb_spec (snd a) v);
      try reflexivity; lia. }
  split; [apply sort_perm|]. split.
  - apply StronglySorted_weaken with (R := Js.may_precede cmp).
    + intros a b. unfold Js.may_precede, cmp.
      rewrite byCountDesc_compare. now rewrite Z.compare_le_iff.
    + now apply sort_sorted.
  - intros v. rewrite !(filter_ext _ _ (Htie v)). now apply sort_stable.
Qed.

(** A stable descending sort has one possible outcome. *)
Section StableUnique.
Variables A K : Type.
Variable le : K -> K -> Prop.
Variable eqb : K -> K -> bool.
Variable key : A -> K.
Hypothesis eqb_refl : forall k, eqb k k = true.
Hypothesis le_antisym : forall j k, le j k -> le k j -> eqb j k = true.

Lemma sorted_stable_unique (o1 o2 : list A) :
  Permutation o1 o2 ->
  StronglySorted (fun a b => le (key b) (key a)) o1 ->
  StronglySorted (fun a b => le (key b) (key a)) o2 ->
  (forall v, filter (fun a => eqb (key a) v) o1
             = filter (fun a => eqb (key a) v) o2) ->
  o1 = o2.
Proof.
  revert o2. induction o1 as [|a o1 IH]; intros o2 Hp H1 H2 Hf.
  - apply Permutation_nil in Hp. now subst.
  - destruct o2 as [|b o2].
    { symmetry in Hp. apply Permutation_nil in Hp. discriminate. }
    apply StronglySorted_inv in H1. destruct H1 as [H1 Ha].
    apply StronglySorted_inv in H2. destruct H2 as [H2 Hb].
    rewrite Forall_forall in Ha, Hb.
    assert (Hab : a = b).
    { assert (Ia : In a (b :: o2))
        by (apply (Permutation_in _ Hp); now left).
      assert (Ib : In b (a :: o1))
        by (apply (Permutation_in _ (Permutation_sym Hp)); now left).
      destruct Ia as [e|Ia]; [now symmetry|].
      destruct Ib as [e|Ib]; [assumption|].
      specialize (Hf (key a)). cbn [filter] in Hf.
      rewrite eqb_refl in Hf.
      rewrite (le_antisym (Ha _ Ib) (Hb _ Ia)) in Hf.
      now injection Hf. }
    subst b. f_equal. apply IH; auto.
    + now apply Permutation_cons_inv with a.
    + intros v. specialize (Hf v). cbn [filter] in Hf.
      destruct (eqb (key a) v); [now injection Hf | assumption].
Qed.

Lemma stable_desc_unique (input o1 o2 : list A) :
  Spec.stable_desc le eqb key input o1 ->
  Spec.stable_desc le eqb key input o2 ->
  o1 = o2.
Proof.
  intros (P1 & S1 & F1) (P2 & S2 & F2).
  apply sorted_stable_unique; auto.
  - now rewrite P1, P2.
  - intros v. now rewrite F1, F2.
Qed.
End StableUnique.

(** In a stable descending sort no entry behind the first [n] has a larger
    key than one of the first [n]. *)
Lemma stable_desc_topk {A K} (le : K -> K -> Prop) (eqb : K -> K -> bool)
      (key : A -> K) (input ranked : list A) (n : nat) (x y : A) :
  Spec.stable_desc le eqb key input ranked ->
  In x (firstn n ranked) -> In y input -> ~ In y (firstn n ranked) ->
  le (key y) (key x).
Proof.
  intros (Hp & Hs & _) Hx Hy Hnot.
  apply (Permutation_in _ (Permutation_sym Hp)) in Hy.
  rewrite <- (firstn_skipn n ranked) in Hy. apply in_app_or in Hy.
  destruct Hy as [Hy|Hy]; [contradiction|].
  exact (@StronglySorted_prefix _ _ n ranked x y Hs Hx Hy).
Qed.

(* ================================================================== *)
(** * The aggregator computes what the specification words *)
(* ================================================================== *)

Import SimulationResult.

Lemma fold_left_ext_eq {A B} (f g : A -> B -> A) l a :
  (forall x y, f x y = g x y) -> fold_left f l a = fold_left g l a.
Proof.
  intros H. revert a. induction l as [|b l IH]; intros a; simpl;
    [reflexivity|]. now rewrite H, IH.
Qed.

Lemma fold_left_add l a : fold_left (fun x y => x + y) l a = a + Spec.sum l.
Proof.
  revert a. induction l as [|b l IH]; intros a; simpl; [lia|].
  rewrite IH. lia.
Qed.

Lemma avgScore_mean l : Simulations.avgScore l = Spec.mean l.
Proof.
  unfold Simulations.avgScore, Spec.mean. now rewrite fold_left_add.
Qed.

Lemma scores_of_snoc a l sim :
  Spec.scores_of a (l ++ [sim])
  = Spec.scores_of a l
    ++ (if String.eqb (match_archetype sim) a
        then [compatibility_score sim] else []).
Proof.
  unfold Spec.scores_of. rewrite filter_app, map_app. cbn [filter].
  now destruct (String.eqb (match_archetype sim) a).
Qed.

Lemma scores_of_absent a l :
  ~ In a (map match_archetype l) -> Spec.scores_of a l = [].
Proof.
  unfold Spec.scores_of. induction l as [|sim l IH]; intros H; [reflexivity|].
  cbn [filter]. destruct (String.eqb_spec (match_archetype sim) a) as [e|n].
  - exfalso. apply H. now left.
  - apply IH. intros Hin. apply H. now right.
Qed.

Lemma archetypeScores_step_accumulate m sim :
  Simulations.archetypeScores_step m sim
  = Js.Map_accumulate match_archetype
      (fun o t => Js.push (match o with Some s => s | None => [] end)
                          (compatibility_score t)) m sim.
Proof.
  unfold Simulations.archetypeScores_step, Js.Map_accumulate, Js.Map_has.
  destruct (Js.Map_get m (match_archetype sim)) as [s|] eqn:E; cbn [negb].
  - now rewrite E.
  - now rewrite Map_get_set_same, Map_set_set.
Qed.

(** The map [archetypeScores] holds one entry per label in first-seen
    order, with the label's scores in batch order. *)
Lemma archetypeScores_spec sims :
  Simulations.archetypeScores sims
  = map (fun a => (a, Spec.scores_of a sims))
        (Spec.first_seen (map match_archetype sims)).
Proof.
  unfold Simulations.archetypeScores.
  erewrite fold_left_ext_eq by (intros; apply archetypeScores_step_accumulate).
  apply fold_accumulate with (g := fun l a => Spec.scores_of a l).
  - intros l t. rewrite scores_of_snoc, String.eqb_refl.
    destruct (in_dec string_dec (match_archetype t) (map match_archetype l));
      [reflexivity|].
    now rewrite scores_of_absent.
  - intros l t k Hk. rewrite scores_of_snoc.
    destruct (String.eqb_spec (match_archetype t) k); [congruence|].
    now rewrite app_nil_r.
Qed.

Lemma topArchetypes_sorted_means sims :
  Simulations.topArchetypes sims
  = firstn 5 (map fst (Js.sort Simulations.byAvgScoreDesc
                               (Spec.archetype_means sims))).
Proof.
  unfold Simulations.topArchetypes, Js.slice0, Js.Map_entries.
  rewrite archetypeScores_spec, map_map, firstn_map.
  unfold Spec.archetype_means. do 3 f_equal.
  apply map_ext. intros a. now rewrite avgScore_mean.
Qed.

Lemma archetype_means_In a m sims :
  In (a, m) (Spec.archetype_means sims)
  <-> In a (map match_archetype sims)
      /\ m = Spec.mean (Spec.scores_of a sims).
Proof.
  unfold Spec.archetype_means. rewrite in_map_iff. split.
  - intros (a' & E & Ha). injection E as <- <-.
    now rewrite first_seen_In in Ha.
  - intros (Ha & ->). exists a. now rewrite first_seen_In.
Qed.

Example topArchetypes_batch :
  Simulations.topArchetypes Sample.batch
  = ["Thoughtful Introvert"; "Social Butterfly"; "Outdoor Enthusiast"].
Proof. reflexivity. Qed.

(** C2. For every batch of records, top_archetypes is: group the scores by
    archetype label (one group per label, in first-seen order), take each
    group's arithmetic mean, sort the groups in descending order of the
    mean with a stable sort (ties stay in first-seen order), and keep the
    first 5 labels.  Its length is at most 5 and at most the number of
    distinct archetype labels in the batch, and no label left out has a
    larger mean than one that is in. *)
Theorem C2_top_archetypes
        (simulations : list SimulationResult.t)
        (vibeAnalysis : Llm.VibeAnalysis) (profile : UserProfile.t) :
  let top :=
    SimulationSummary.top_archetypes
      (Simulations.analyzeSimulations simulations vibeAnalysis profile) in
  (exists ranked : list (string * Q),
      Spec.stable_desc Qle Qeq_bool snd
                       (Spec.archetype_means simulations) ranked
      /\ top = firstn 5 (map fst ranked))
  /\ (List.length top <= 5)%nat
  /\ (List.length top
      <= List.length (nodup string_dec
                            (map match_archetype simulations)))%nat
  /\ (forall kept dropped,
         In kept top ->
         In dropped (map match_archetype simulations) ->
         ~ In dropped top ->
         (Spec.mean (Spec.scores_of dropped simulations)
          <= Spec.mean (Spec.scores_of kept simulations))%Q).
Proof.
  cbn [Simulations.analyzeSimulations SimulationSummary.top_archetypes].
  set (ranked := Js.sort Simulations.byAvgScoreDesc
                         (Spec.archetype_means simulations)).
  pose proof (sort_byAvgScoreDesc (Spec.archetype_means simulations))
    as Hsd.
  fold ranked in Hsd.
  assert (Htop : Simulations.topArchetypes simulations
                 = map fst (firstn 5 ranked)).
  { rewrite topArchetypes_sorted_means. apply firstn_map. }
  split.
  { exists ranked. split; [exact Hsd|].
    rewrite Htop. symmetry. apply firstn_map. }
  split; [rewrite Htop, length_map, length_firstn; lia|].
  split.
  { rewrite Htop, length_map, length_firstn.
    destruct Hsd as (Hp & _ & _). rewrite (Permutation_length Hp).
    unfold Spec.archetype_means. rewrite length_map, first_seen_length. lia. }
  intros kept dropped Hk Hd Hnot. rewrite Htop in Hk, Hnot.
  apply in_map_iff in Hk. destruct Hk as ([k m] & Ek & Hk).
  cbn [fst] in Ek. subst k.
  assert (Hm : m = Spec.mean (Spec.scores_of kept simulations)).
  { destruct Hsd as (Hp & _ & _).
    apply In_firstn in Hk. apply (Permutation_in _ Hp) in Hk.
    now apply archetype_means_In in Hk. }
  subst m.
  apply (@stable_desc_topk _ _ Qle Qeq_bool snd _ ranked 5
           (kept, Spec.mean (Spec.scores_of kept simulations))
           (dropped, Spec.mean (Spec.scores_of dropped simulations)) Hsd Hk).
  - now apply archetype_means_In.
  - intros Hin. apply Hnot. apply in_map_iff.
    now exists (dropped, Spec.mean (Spec.scores_of dropped simulations)).
Qed.

(** The ranking named in C2 is the only list that is a stable descending
    sort of the group means. *)
Lemma ranked_means_unique simulations (r1 r2 : list (string * Q)) :
  Spec.stable_desc Qle Qeq_bool snd (Spec.archetype_means simulations) r1 ->
  Spec.stable_desc Qle Qeq_bool snd (Spec.archetype_means simulations) r2 ->
  r1 = r2.
Proof.
  apply stable_desc_unique.
  - apply Qeq_bool_refl.
  - intros j k H1 H2. apply Qeq_bool_iff. lra.
Qed.

Lemma ranked_counts_unique simulations (r1 r2 : list (string * Z)) :
  Spec.stable_desc Z.le Z.eqb snd (Spec.issue_counts simulations) r1 ->
  Spec.stable_desc Z.le Z.eqb snd (Spec.issue_counts simulations) r2 ->
  r1 = r2.
Proof.
  apply stable_desc_unique.
  - apply Z.eqb_refl.
  - intros j k H1 H2. apply Z.eqb_eq. lia.
Qed.

(** ** Common issues *)

Lemma issues_present sims : Simulations.issues sims = Spec.present_issues sims.
Proof.
  unfold Simulations.issues. induction sims as [|sim sims IH]; [reflexivity|].
  cbn [map flat_map Spec.present_issues]. rewrite IH.
  now destruct (potential_issue sim).
Qed.

Lemma present_issues_In issue sims :
  In issue (Spec.present_issues sims)
  <-> In (Some issue) (map potential_issue sims).
Proof.
  induction sims as [|sim sims IH]; [reflexivity|].
  cbn [Spec.present_issues map In].
  destruct (potential_issue sim) as [s|]; cbn [In]; rewrite IH.
  - intuition congruence.
  - intuition discriminate.
Qed.

(** The map [issueFrequency] holds one entry per issue string in
    first-seen order, with the number of records reporting it. *)
Lemma issueFrequency_spec sims :
  Simulations.issueFrequency sims = Spec.issue_counts sims.
Proof.
  unfold Simulations.issueFrequency, Spec.issue_counts, Spec.frequency.
  rewrite issues_present.
  generalize (Spec.present_issues sims) as l. intros l.
  replace (Spec.first_seen l)
    with (Spec.first_seen (map (fun s : string => s) l))
    by now rewrite map_id.
  apply (fold_accumulate (fun s : string => s)
           (fun o (_ : string) => Js.or_default o 0 + 1)
           (fun l k => Z.of_nat (count_occ string_dec l k))).
  - intros l0 t. rewrite map_id, count_occ_app. cbn [count_occ].
    destruct (string_dec t t) as [_|n]; [|contradiction].
    destruct (in_dec string_dec t l0) as [i|n]; cbn [Js.or_default].
    + destruct (Z.eqb_spec (Z.of_nat (count_occ string_dec l0 t)) 0); lia.
    + apply (count_occ_not_In string_dec) in n. rewrite n. reflexivity.
  - intros l0 t k Hk. rewrite count_occ_app. cbn [count_occ].
    destruct (string_dec t k); [congruence | lia].
Qed.

Lemma commonIssues_sorted_counts sims :
  Simulations.commonIssues sims
  = firstn 3 (map fst (Js.sort Simulations.byCountDesc
                               (Spec.issue_counts sims))).
Proof.
  unfold Simulations.commonIssues, Js.slice0, Js.Map_entries.
  now rewrite issueFrequency_spec, firstn_map.
Qed.

Lemma issue_counts_labels sims :
  map fst (Spec.issue_counts sims)
  = Spec.first_seen (Spec.present_issues sims).
Proof.
  unfold Spec.issue_counts. rewrite map_map. cbn [fst]. apply map_id.
Qed.

Lemma issue_counts_In issue c sims :
  In (issue, c) (Spec.issue_counts sims)
  <-> In issue (Spec.present_issues sims) /\ c = Spec.frequency issue sims.
Proof.
  unfold Spec.issue_counts. rewrite in_map_iff. split.
  - intros (i & E & Hi). injection E as <- <-.
    now rewrite first_seen_In in Hi.
  - intros (Hi & ->). exists issue. now rewrite first_seen_In.
Qed.

(** The issue fields of a generated batch do not depend on the random
    draws: scenario [i] carries entry [i mod 5] of the generator's list. *)
Lemma generateBatch_issue_fields rnd ps :
  map potential_issue (Simulations.generateBatch rnd ps)
  = map (fun i => nth (i mod 5) Llm.issues None) (seq 0 50).
Proof.
  unfold Simulations.generateBatch. rewrite map_map. reflexivity.
Qed.

Lemma generateBatch_commonIssues rnd ps :
  Simulations.commonIssues (Simulations.generateBatch rnd ps)
  = [ "May come across as too eager - balance enthusiasm with letting conversation breathe";
      "Could benefit from asking more follow-up questions to show genuine interest";
      "Responses might be too brief - consider sharing a bit more to keep momentum" ].
Proof.
  unfold Simulations.commonIssues, Simulations.issueFrequency,
    Simulations.issues.
  rewrite generateBatch_issue_fields. vm_compute. reflexivity.
Qed.

Example commonIssues_batch :
  Simulations.commonIssues Sample.batch
  = ["too brief"; "asks few questions"].
Proof. reflexivity. Qed.

(** C3. For every batch of records, common_issues is: count how many
    records report each issue string (records whose issue field is null or
    undefined, the no-issue slot, are left out), sort the strings in
    descending order of the count with a stable sort, and keep the first 3
    labels.  Every entry is an issue string some record reports, so the
    no-issue slot never appears; no string appears twice; and no issue left
    out is reported more often than one that is in.  For the 50 generated
    records of a run the result is the first three issue texts of the
    generator's list, whatever the random draws. *)
Theorem C3_common_issues
        (simulations : list SimulationResult.t)
        (vibeAnalysis : Llm.VibeAnalysis) (profile : UserProfile.t) :
  let common :=
    SimulationSummary.common_issues
      (Simulations.analyzeSimulations simulations vibeAnalysis profile) in
  (exists ranked : list (string * Z),
      Spec.stable_desc Z.le Z.eqb snd (Spec.issue_counts simulations) ranked
      /\ common = firstn 3 (map fst ranked))
  /\ (List.length common <= 3)%nat
  /\ NoDup common
  /\ (forall issue,
         In issue common -> In (Some issue) (map potential_issue simulations))
  /\ (forall kept dropped,
         In kept common ->
         In (Some dropped) (map potential_issue simulations) ->
         ~ In dropped common ->
         Spec.frequency dropped simulations
         <= Spec.frequency kept simulations)
  /\ (forall rnd profileSummary,
         SimulationSummary.common_issues
           (Simulations.analyzeSimulations
              (Simulations.generateBatch rnd profileSummary)
              vibeAnalysis profile)
         = [ "May come across as too eager - balance enthusiasm with letting conversation breathe";
             "Could benefit from asking more follow-up questions to show genuine interest";
             "Responses might be too brief - consider sharing a bit more to keep momentum" ]).
Proof.
  cbn [Simulations.analyzeSimulations SimulationSummary.common_issues].
  set (ranked := Js.sort Simulations.byCountDesc
                         (Spec.issue_counts simulations)).
  pose proof (sort_byCountDesc (Spec.issue_counts simulations)) as Hsd.
  fold ranked in Hsd. destruct Hsd as (Hp & Hs & Hf).
  assert (Hci : Simulations.commonIssues simulations
                = map fst (firstn 3 ranked)).
  { rewrite commonIssues_sorted_counts. apply firstn_map. }
  assert (Hnd : NoDup (map fst ranked)).
  { apply (Permutation_NoDup (l := map fst (Spec.issue_counts simulations))).
    - apply Permutation_map. now symmetry.
    - rewrite issue_counts_labels. apply first_seen_NoDup. }
  split.
  { exists ranked. split; [now repeat split|].
    rewrite Hci. symmetry. apply firstn_map. }
  split; [rewrite Hci, length_map, length_firstn; lia|].
  split.
  { rewrite Hci, <- firstn_map.
    rewrite <- (firstn_skipn 3 (map fst ranked)) in Hnd.
    now apply NoDup_app_remove_r in Hnd. }
  split; [|split].
  - intros issue Hin. rewrite Hci in Hin. apply in_map_iff in Hin.
    destruct Hin as ([i c] & <- & Hin). apply In_firstn in Hin.
    apply (Permutation_in _ Hp) in Hin. apply issue_counts_In in Hin.
    now apply present_issues_In.
  - intros kept dropped Hk Hd Hnot. rewrite Hci in Hk, Hnot.
    apply in_map_iff in Hk. destruct Hk as ([k c] & Ek & Hk).
    cbn [fst] in Ek. subst k.
    assert (Hkc : c = Spec.frequency kept simulations).
    { apply In_firstn in Hk. apply (Permutation_in _ Hp) in Hk.
      now apply issue_counts_In in Hk. }
    subst c.
    apply (@stable_desc_topk _ _ Z.le Z.eqb snd _ ranked 3
             (kept, Spec.frequency kept simulations)
             (dropped, Spec.frequency dropped simulations)
             (conj Hp (conj Hs Hf)) Hk).
    + apply issue_counts_In. split; [|reflexivity].
      now apply present_issues_In.
    + intros Hin. apply Hnot. apply in_map_iff.
      now exists (dropped, Spec.frequency dropped simulations).
  - intros rnd ps. apply generateBatch_commonIssues.
Qed.

(* ================================================================== *)
(** * Substring test *)
(* ================================================================== *)

Lemma prefix_append pat s :
  String.prefix pat s = true <-> exists post, s = (pat ++ post)%string.
Proof.
  revert s. induction pat as [|c pat IH]; intros [|d s]; cbn [String.prefix].
  - split; [intros _; now exists EmptyString | reflexivity].
  - split; [intros _; now exists (String d s) | reflexivity].
  - split; [discriminate | intros [post H]; discriminate].
  - destruct (Ascii.ascii_dec c d) as [->|n].
    + rewrite IH. split; intros [post H]; exists post.
      * cbn. now rewrite H.
      * cbn in H. now injection H.
    + split; [discriminate|]. intros [post H]. cbn in H.
      injection H as H1 H2. congruence.
Qed.

(** [includes] decides occurrence as a contiguous substring. *)
Lemma includes_contains s pat :
  Js.includes s pat = true <-> Spec.contains s pat.
Proof.
  unfold Spec.contains. induction s as [|c s IH]; cbn [Js.includes].
  - rewrite orb_false_r, prefix_append. split.
    + intros [post H]. now exists EmptyString, post.
    + intros (pre & post & H). destruct pre; [now exists post|discriminate].
  - rewrite orb_true_iff, prefix_append, IH. split.
    + intros [[post H]|(pre & post & H)].
      * now exists EmptyString, post.
      * exists (String c pre), post. cbn. now rewrite H.
    + intros (pre & post & H). destruct pre as [|d pre].
      * left. now exists post.
      * right. cbn in H. injection H as H1 H2. now exists pre, post.
Qed.

(* ================================================================== *)
(** * Average compatibility *)
(* ================================================================== *)

Lemma totalCompatibility_sum sims :
  Simulations.totalCompatibility sims
  = Spec.sum (map compatibility_score sims).
Proof.
  unfold Simulations.totalCompatibility.
  assert (H : forall a, fold_left (fun sum sim => sum + compatibility_score sim)
                                  sims a
                        = a + Spec.sum (map compatibility_score sims)).
  { induction sims as [|sim sims IH]; intros a; simpl; [lia|].
    rewrite IH. lia. }
  now rewrite H.
Qed.

Lemma averageCompatibility_round_mean sims :
  Simulations.averageCompatibility sims
  = Js.Math_round (Spec.mean (map compatibility_score sims)).
Proof.
  unfold Simulations.averageCompatibility, Spec.mean.
  now rewrite totalCompatibility_sum, length_map.
Qed.

Example Math_round_ties :
  Js.Math_round (5 # 2) = 3 /\ Js.Math_round (-5 # 2) = -2
  /\ Js.Math_round (7 # 3) = 2.
Proof. repeat split. Qed.

Example averageCompatibility_batch :
  Simulations.averageCompatibility Sample.batch = 76.
Proof. reflexivity. Qed.

(** [Math.round q] is the integer nearest to [q]. *)
Lemma Math_round_nearest q :
  (inject_Z (Js.Math_round q) - (1 # 2) <= q
   < inject_Z (Js.Math_round q) + (1 # 2))%Q.
Proof.
  unfold Js.Math_round.
  pose proof (Qfloor_le (q + (1 # 2))) as H1.
  pose proof (Qlt_floor (q + (1 # 2))) as H2.
  rewrite inject_Z_plus in H2. change (inject_Z 1) with 1%Q in H2.
  split; lra.
Qed.

Lemma sum_bounds lo hi (l : list Z) :
  Forall (fun x => lo <= x <= hi) l ->
  lo * Z.of_nat (List.length l) <= Spec.sum l <= hi * Z.of_nat (List.length l).
Proof.
  induction 1 as [|x l Hx Hl IH]; cbn [Spec.sum fold_right List.length].
  - lia.
  - fold (Spec.sum l). lia.
Qed.

Lemma mean_bounds lo hi (l : list Z) :
  l <> [] ->
  Forall (fun x => lo <= x <= hi) l ->
  (inject_Z lo <= Spec.mean l <= inject_Z hi)%Q.
Proof.
  intros Hne Hall. pose proof (sum_bounds Hall) as [H1 H2].
  unfold Spec.mean.
  set (n := Z.of_nat (List.length l)) in *.
  assert (Hn : 0 < n) by (destruct l; [congruence | cbn in n; lia]).
  assert (HnQ : (0 < inject_Z n)%Q)
    by (change 0%Q with (inject_Z 0); now rewrite <- Zlt_Qlt).
  split.
  - apply Qle_shift_div_l; [assumption|].
    rewrite <- inject_Z_mult. now rewrite <- Zle_Qle.
  - apply Qle_shift_div_r; [assumption|].
    rewrite <- inject_Z_mult. now rewrite <- Zle_Qle.
Qed.

Lemma Math_round_bounds lo hi q :
  (inject_Z lo <= q <= inject_Z hi)%Q -> lo <= Js.Math_round q <= hi.
Proof.
  intros [H1 H2]. pose proof (Math_round_nearest q) as [H3 H4].
  split.
  - assert (H : (inject_Z lo < inject_Z (Js.Math_round q + 1))%Q).
    { rewrite inject_Z_plus. change (inject_Z 1) with 1%Q. lra. }
    rewrite <- Zlt_Qlt in H. lia.
  - assert (H : (inject_Z (Js.Math_round q) < inject_Z (hi + 1))%Q).
    { rewrite inject_Z_plus. change (inject_Z 1) with 1%Q. lra. }
    rewrite <- Zlt_Qlt in H. lia.
Qed.

Lemma generateBatch_length rnd ps :
  List.length (Simulations.generateBatch rnd ps) = 50%nat.
Proof. reflexivity. Qed.

Lemma generateBatch_scores rnd ps :
  (forall i, (i < 50)%nat -> (0 <= rnd i < 1)%Q) ->
  Forall (fun sim => 60 <= compatibility_score sim < 95)
         (Simulations.generateBatch rnd ps).
Proof.
  intros Hr. unfold Simulations.generateBatch. rewrite Forall_map.
  apply Forall_forall. intros i Hi. apply in_seq in Hi.
  cbn [Llm.generateSimulation compatibility_score].
  pose proof (@floor_random_range (rnd i) (Hr i ltac:(lia)) 35 ltac:(lia)) as H.
  change (inject_Z 35) with 35%Q in H. lia.
Qed.

(** C1. For every simulation run (50 generated records, each random draw in
    [0,1)): every score is an integer in [60,95); average_compatibility is
    [Math.round] of the arithmetic mean of the 50 scores, that is, the
    integer nearest to the mean; and it lies in [60,95). *)
Theorem C1_average_compatibility
        (rnd : nat -> Q) (profileSummary : string)
        (vibeAnalysis : Llm.VibeAnalysis) (profile : UserProfile.t) :
  (forall i, (i < 50)%nat -> (0 <= rnd i < 1)%Q) ->
  let simulations := Simulations.generateBatch rnd profileSummary in
  let scores := map compatibility_score simulations in
  let average :=
    SimulationSummary.average_compatibility
      (Simulations.analyzeSimulations simulations vibeAnalysis profile) in
  List.length scores = 50%nat
  /\ Forall (fun score => 60 <= score < 95) scores
  /\ average = Js.Math_round (Spec.mean scores)
  /\ (inject_Z average - (1 # 2) <= Spec.mean scores
      < inject_Z average + (1 # 2))%Q
  /\ 60 <= average < 95.
Proof.
  intros Hr simulations scores average.
  pose proof (@generateBatch_scores rnd profileSummary Hr) as Hs.
  fold simulations in Hs.
  assert (Hlen : List.length scores = 50%nat) by reflexivity.
  assert (Hscores : Forall (fun score => 60 <= score < 95) scores).
  { unfold scores. now rewrite Forall_map. }
  assert (Havg : average = Js.Math_round (Spec.mean scores)).
  { unfold average. cbn [Simulations.analyzeSimulations
                           SimulationSummary.average_compatibility].
    apply averageCompatibility_round_mean. }
  repeat split; try assumption.
  - rewrite Havg. apply Math_round_nearest.
  - rewrite Havg. apply Math_round_nearest.
  - rewrite Havg. apply Math_round_bounds with (hi := 94).
    apply mean_bounds.
    + intros E. rewrite E in Hlen. discriminate.
    + eapply Forall_impl; [|exact Hscores]. cbn. intros; lia.
  - rewrite Havg.
    assert (H : Js.Math_round (Spec.mean scores) <= 94); [|lia].
    apply Math_round_bounds with (lo := 60).
    apply mean_bounds.
    + intros E. rewrite E in Hlen. discriminate.
    + eapply Forall_impl; [|exact Hscores]. cbn. intros; lia.
Qed.

Lemma C1_average_compatibility_witness :
  (forall i, (i < 50)%nat -> (0 <= (fun _ : nat => 1 # 2) i < 1)%Q)
  /\ let simulations :=
       Simulations.generateBatch (fun _ => 1 # 2) "summary" in
     let scores := map compatibility_score simulations in
     let average :=
       SimulationSummary.average_compatibility
         (Simulations.analyzeSimulations simulations
            (Llm.analyzeVibe "bio" []) Sample.profile) in
     List.length scores = 50%nat
     /\ Forall (fun score => 60 <= score < 95) scores
     /\ average = Js.Math_round (Spec.mean scores)
     /\ (inject_Z average - (1 # 2) <= Spec.mean scores
         < inject_Z average + (1 # 2))%Q
     /\ 60 <= average < 95.
Proof.
  assert (H : forall i, (i < 50)%nat -> (0 <= (fun _ : nat => 1 # 2) i < 1)%Q).
  { intros i _. split; [discriminate | reflexivity]. }
  split; [exact H|].
  exact (@C1_average_compatibility (fun _ => 1 # 2) "summary"
           (Llm.analyzeVibe "bio" []) Sample.profile H).
Defined.

(* ================================================================== *)
(** * Coaching tips *)
(* ================================================================== *)

Example generateCoachingTips_sample :
  Simulations.generateCoachingTips
    Sample.profile (Llm.analyzeVibe "bio" [])
    ["asks few questions"; "comes across as too eager"] 58
  = [ Simulations.tip_score_low; Simulations.tip_playfulness_low;
      Simulations.tip_length_high; Simulations.tip_questions;
      Simulations.tip_breathe ].
Proof. reflexivity. Qed.

(** C4. For every profile, vibe analysis, common-issue list and average
    score, coaching_tips is the rule list evaluated in order - the tip of
    the average-score band (from 75, from 60, below), a tip if positivity
    is below 50, a tip if playfulness is below 40 and another if it is
    above 80, a tip if response length is below 30 and another if it is
    above 80, a tip if some common issue contains "question", a tip if some
    common issue contains "eager" or "enthusias" - cut to its first 5
    entries; it starts with the band tip and has between 1 and 5
    entries. *)
Theorem C4_coaching_tips (profile : UserProfile.t)
        (vibeAnalysis : Llm.VibeAnalysis) (commonIssues : list string)
        (avgCompatibility : Z) :
  let tone := UserProfile.textingTone profile in
  let tips :=
    Simulations.generateCoachingTips profile vibeAnalysis commonIssues
                                     avgCompatibility in
  tips = firstn 5 (Spec.coaching_rules (TextingTone.positivity tone)
                                       (TextingTone.playfulness tone)
                                       (TextingTone.responseLength tone)
                                       commonIssues avgCompatibility)
  /\ hd_error tips = Some (Spec.band_tip avgCompatibility)
  /\ (1 <= List.length tips <= 5)%nat.
Proof.
  intros tone tips. subst tips.
  unfold Simulations.generateCoachingTips, Spec.coaching_rules, Spec.band_tip,
    Spec.tip_if, Js.push, Js.slice0, Js.some.
  fold tone. cbv zeta. rewrite !Z.geb_leb, !Z.gtb_ltb.
  destruct (75 <=? avgCompatibility); [|destruct (60 <=? avgCompatibility)];
    destruct (TextingTone.positivity tone <? 50);
    (destruct (Z.ltb_spec (TextingTone.playfulness tone) 40);
     [destruct (Z.ltb_spec 80 (TextingTone.playfulness tone)); [lia|]
     |destruct (80 <? TextingTone.playfulness tone)]);
    (destruct (Z.ltb_spec (TextingTone.responseLength tone) 30);
     [destruct (Z.ltb_spec 80 (TextingTone.responseLength tone)); [lia|]
     |destruct (80 <? TextingTone.responseLength tone)]);
    destruct (existsb (fun issue => Js.includes issue "question")
                      commonIssues);
    destruct (existsb (fun issue => Js.includes issue "eager"
                                    || Js.includes issue "enthusias")
                      commonIssues);
    cbn [app firstn hd_error List.length]; (split; [reflexivity|]);
    (split; [reflexivity|]); lia.
Qed.

(* ================================================================== *)
(** * The store and the handlers *)
(* ================================================================== *)

Import Server ServerSpec.

(** Every writing method except [reset] leaves a stored profile in
    place. *)
Lemma call_keeps_profile method this :
  method <> Storage.Reset ->
  Storage.getProfile this <> None ->
  Storage.getProfile (Storage.call method this) <> None.
Proof.
  intros Hm Hp. unfold Storage.getProfile in *.
  destruct method; cbn [Storage.call].
  - discriminate.
  - unfold Storage.updateProfile.
    destruct (Storage.profile this); cbn; [discriminate | now elim Hp].
  - exact Hp.
  - exact Hp.
  - exact Hp.
  - contradiction.
Qed.

(** No request empties the profile slot. *)
Lemma handle_keeps_profile request storage :
  Storage.getProfile storage <> None ->
  Storage.getProfile (snd (handle request storage)) <> None.
Proof.
  intros Hp. unfold Storage.getProfile in *.
  destruct (Storage.profile storage) as [p|] eqn:E; [clear Hp | now elim Hp].
  destruct request; cbn [handle].
  - cbn. now rewrite E.
  - unfold post_profile. destruct (textingTone body); cbn;
      [discriminate | now rewrite E].
  - unfold get_profile, Storage.getProfile. rewrite E. cbn. now rewrite E.
  - unfold post_photos, Storage.getProfile, Storage.updateProfile.
    rewrite E. destruct (List.length files =? 0)%nat; cbn;
      [now rewrite E | discriminate].
  - unfold get_photos_verification, Storage.getProfile. rewrite E.
    destruct (List.length (UserProfile.photos p) =? 0)%nat; cbn;
      now rewrite E.
  - cbn. now rewrite E.
  - unfold post_chat_message, Storage.getProfile.
    destruct content as [[|c content]|]; cbn; rewrite E; cbn;
      try rewrite E; discriminate.
  - unfold post_simulations_run, Storage.getProfile. rewrite E. cbn.
    rewrite E. discriminate.
  - unfold get_simulations_results.
    destruct (Storage.getSimulationResults storage); cbn; now rewrite E.
Qed.

(** C6 (amended). For every stored profile and every successful photo
    upload via POST /api/photos, the upload sets the profile's photo
    filename list to the uploaded filenames (filenames stored earlier are
    not kept) and leaves every other field of the stored profile unchanged;
    no request and no store method other than reset empties the profile
    slot. *)
Theorem C6_photo_upload_frame
        (rnd : Q) (files : list File) (storage : Storage.t)
        (photos : list string) (verification : PhotoVerification.t) :
  fst (post_photos rnd files storage) = PhotosStored photos verification ->
  let storage' := snd (post_photos rnd files storage) in
  photos = map filename files
  /\ (exists old new,
        Storage.getProfile storage = Some old
        /\ Storage.getProfile storage' = Some new
        /\ UserProfile.photos new = map filename files
        /\ UserProfile.id new = UserProfile.id old
        /\ UserProfile.name new = UserProfile.name old
        /\ UserProfile.ageRange new = UserProfile.ageRange old
        /\ UserProfile.gender new = UserProfile.gender old
        /\ UserProfile.interestedIn new = UserProfile.interestedIn old
        /\ UserProfile.bio new = UserProfile.bio old
        /\ UserProfile.relationshipGoals new
           = UserProfile.relationshipGoals old
        /\ UserProfile.textingTone new = UserProfile.textingTone old
        /\ UserProfile.selfRatedAttractiveness new
           = UserProfile.selfRatedAttractiveness old
        /\ UserProfile.createdAt new = UserProfile.createdAt old)
  /\ (forall request st,
        Storage.getProfile st <> None ->
        Storage.getProfile (snd (handle request st)) <> None)
  /\ (forall method st,
        method <> Storage.Reset ->
        Storage.getProfile st <> None ->
        Storage.getProfile (Storage.call method st) <> None).
Proof.
  intros Hok storage'. subst storage'. revert Hok.
  unfold post_photos, Storage.getProfile, Storage.updateProfile.
  destruct (Storage.profile storage) as [old|] eqn:E; [|discriminate].
  destruct (List.length files =? 0)%nat; [discriminate|].
  cbn [fst snd]. intros Hok. injection Hok as <- _.
  split; [reflexivity|]. split.
  - exists old, (UserProfile.spread old
                   (UserProfile.only_photos (map filename files))).
    cbn. repeat split; reflexivity.
  - split; [exact handle_keeps_profile | exact call_keeps_profile].
Qed.

Lemma C6_photo_upload_frame_witness :
  fst (post_photos (1 # 2) Sample.secondUpload Sample.uploadedOnce)
  = PhotosStored ["77b01e"; "c4d2aa"]
                 (PhotoVerification.analyzePhotos (1 # 2)
                                                  ["77b01e"; "c4d2aa"])
  /\ let storage' :=
       snd (post_photos (1 # 2) Sample.secondUpload Sample.uploadedOnce) in
     ["77b01e"; "c4d2aa"] = map filename Sample.secondUpload
     /\ (exists old new,
           Storage.getProfile Sample.uploadedOnce = Some old
           /\ Storage.getProfile storage' = Some new
           /\ UserProfile.photos new = map filename Sample.secondUpload
           /\ UserProfile.id new = UserProfile.id old
           /\ UserProfile.name new = UserProfile.name old
           /\ UserProfile.ageRange new = UserProfile.ageRange old
           /\ UserProfile.gender new = UserProfile.gender old
           /\ UserProfile.interestedIn new = UserProfile.interestedIn old
           /\ UserProfile.bio new = UserProfile.bio old
           /\ UserProfile.relationshipGoals new
              = UserProfile.relationshipGoals old
           /\ UserProfile.textingTone new = UserProfile.textingTone old
           /\ UserProfile.selfRatedAttractiveness new
              = UserProfile.selfRatedAttractiveness old
           /\ UserProfile.createdAt new = UserProfile.createdAt old)
     /\ (forall request st,
           Storage.getProfile st <> None ->
           Storage.getProfile (snd (handle request st)) <> None)
     /\ (forall method st,
           method <> Storage.Reset ->
           Storage.getProfile st <> None ->
           Storage.getProfile (Storage.call method st) <> None).
Proof.
  assert (H : fst (post_photos (1 # 2) Sample.secondUpload Sample.uploadedOnce)
              = PhotosStored ["77b01e"; "c4d2aa"]
                  (PhotoVerification.analyzePhotos (1 # 2)
                                                   ["77b01e"; "c4d2aa"]))
    by reflexivity.
  split; [exact H|].
  exact (@C6_photo_upload_frame (1 # 2) Sample.secondUpload
           Sample.uploadedOnce _ _ H).
Defined.

(** C6 as first stated fails: a second upload does not add to the photo
    list; the filename stored by the first upload is gone afterwards. *)
Lemma C6_upload_adds_counterexample :
  let before := Sample.uploadedOnce in
  let after := snd (post_photos (1 # 2) Sample.secondUpload before) in
  fst (post_photos (1 # 2) Sample.secondUpload before)
  = PhotosStored ["77b01e"; "c4d2aa"]
                 (PhotoVerification.analyzePhotos (1 # 2)
                                                  ["77b01e"; "c4d2aa"])
  /\ option_map UserProfile.photos (Storage.getProfile before)
     = Some ["3f2a9c"]
  /\ option_map UserProfile.photos (Storage.getProfile after)
     = Some ["77b01e"; "c4d2aa"]
  /\ ~ In "3f2a9c" ["77b01e"; "c4d2aa"].
Proof.
  cbv zeta. repeat split; try reflexivity.
  intros [H|[H|[]]]; discriminate.
Qed.

(* ================================================================== *)
(** * Profile creation *)
(* ================================================================== *)

Lemma or_default_nonzero a b : b <> 0 -> Js.or_default a b <> 0.
Proof.
  intros Hb. unfold Js.or_default. destruct a as [v|]; [|assumption].
  destruct (Z.eqb_spec v 0); assumption.
Qed.

(** What [POST /api/profile] stores when the body has a [textingTone]
    object. *)
Lemma post_profile_stores env body tone storage :
  textingTone body = Some tone ->
  exists profile welcome,
    post_profile env body storage
    = (ProfileCreated profile welcome,
       Storage.mk (Some profile)
                  (Storage.chatHistory storage ++ [welcome])
                  (Storage.simulationResults storage))
    /\ UserProfile.textingTone profile
       = TextingTone.mk (Js.or_default (positivity tone) 50)
                        (Js.or_default (playfulness tone) 50)
                        (Js.or_default (responseLength tone) 50)
    /\ UserProfile.photos profile = []
    /\ welcome = ChatMessage.mk (uuid (snd env)) ChatMessage.agent
                                (welcomeText (name body)) (now (snd env)).
Proof.
  intros Ht. unfold post_profile. rewrite Ht.
  eexists. eexists. split; [reflexivity|]. repeat split.
Qed.



(** C7. The handler does not default the three fields of a request whose
    body has no textingTone object: all three of positivity, playfulness
    and responseLength are missing there, reading the first of them throws,
    the handler answers with the error response of its catch branch
    (status 500) and no profile is stored, where the claim has a profile
    stored with the three values 50. *)
Lemma C7_no_tone_object_fails :
  handle (POST_profile Sample.stamps Sample.bodyWithoutTone) Storage.initial
  = (Exception, Storage.initial)
  /\ Storage.getProfile
       (snd (handle (POST_profile Sample.stamps Sample.bodyWithoutTone)
                    Storage.initial))
     = None.
Proof. split; reflexivity. Qed.

(** A handler branch that leaves the profile slot as it found it. *)
Ltac profile_untouched E Hinv := cbn; rewrite ?E; exact Hinv.

Lemma handle_tone_nonzero request storage :
  stored_tone_nonzero storage ->
  stored_tone_nonzero (snd (handle request storage)).
Proof.
  unfold stored_tone_nonzero, Storage.getProfile. intros Hinv.
  destruct request; cbn [handle].
  - exact Hinv.
  - unfold post_profile. destruct (textingTone body) as [tone|]; [|exact Hinv].
    cbn. intros profile E. injection E as <-. unfold tone_nonzero. cbn.
    repeat split; apply or_default_nonzero; discriminate.
  - unfold get_profile, Storage.getProfile.
    destruct (Storage.profile storage) eqn:E; profile_untouched E Hinv.
  - unfold post_photos, Storage.getProfile, Storage.updateProfile.
    destruct (Storage.profile storage) as [old|] eqn:E;
      [|profile_untouched E Hinv].
    destruct (List.length files =? 0)%nat; [profile_untouched E Hinv|].
    cbn. intros profile E'. injection E' as <-.
    exact (Hinv old eq_refl).
  - unfold get_photos_verification, Storage.getProfile.
    destruct (Storage.profile storage) as [old|] eqn:E;
      [|profile_untouched E Hinv].
    destruct (List.length (UserProfile.photos old) =? 0)%nat;
      profile_untouched E Hinv.
  - exact Hinv.
  - unfold post_chat_message, Storage.getProfile.
    destruct content as [[|c content]|]; try exact Hinv.
    destruct (Storage.profile storage) as [old|] eqn:E;
      profile_untouched E Hinv.
  - unfold post_simulations_run, Storage.getProfile.
    destruct (Storage.profile storage) as [old|] eqn:E;
      profile_untouched E Hinv.
  - unfold get_simulations_results.
    destruct (Storage.getSimulationResults storage); exact Hinv.
Qed.

Lemma serve_tone_nonzero requests storage :
  stored_tone_nonzero storage ->
  stored_tone_nonzero (serve requests storage).
Proof.
  revert storage. induction requests as [|request requests IH];
    intros storage Hinv; [exact Hinv|].
  cbn [serve fold_left]. apply IH. now apply handle_tone_nonzero.
Qed.

(** C10. For every profile-creation request in which a texting-tone field
    is present with the value 0, the stored profile records that field as
    50; and in every store the server reaches from its initial state, by
    any sequence of requests, the stored profile has no texting-tone value
    of 0. *)
Theorem C10_zero_tone_stored_as_50
        (requests : list Request) (env : Stamp * Stamp)
        (body : ProfileBody) (tone : ToneBody) :
  textingTone body = Some tone ->
  let reached := serve requests Storage.initial in
  (exists profile,
      Storage.getProfile (snd (post_profile env body reached)) = Some profile
      /\ (positivity tone = Some 0 ->
          TextingTone.positivity (UserProfile.textingTone profile) = 50)
      /\ (playfulness tone = Some 0 ->
          TextingTone.playfulness (UserProfile.textingTone profile) = 50)
      /\ (responseLength tone = Some 0 ->
          TextingTone.responseLength (UserProfile.textingTone profile) = 50))
  /\ (forall stored,
         Storage.getProfile reached = Some stored ->
         TextingTone.positivity (UserProfile.textingTone stored) <> 0
         /\ TextingTone.playfulness (UserProfile.textingTone stored) <> 0
         /\ TextingTone.responseLength (UserProfile.textingTone stored) <> 0).
Proof.
  intros Ht reached. split.
  - destruct (@post_profile_stores env body tone reached Ht)
      as (profile & welcome & E & Htone & _ & _).
    exists profile. rewrite E. cbn [snd Storage.getProfile Storage.profile].
    split; [reflexivity|]. rewrite Htone. cbn.
    repeat split; intros ->; reflexivity.
  - apply (@serve_tone_nonzero requests Storage.initial).
    intros profile E. discriminate.
Qed.

Lemma C10_zero_tone_stored_as_50_witness :
  textingTone Sample.body = Some Sample.toneBody
  /\ let reached :=
       serve [POST_profile Sample.stamps Sample.body;
              POST_photos (1 # 2) Sample.firstUpload] Storage.initial in
     (exists profile,
         Storage.getProfile
           (snd (post_profile Sample.stamps Sample.body reached))
         = Some profile
         /\ (positivity Sample.toneBody = Some 0 ->
             TextingTone.positivity (UserProfile.textingTone profile) = 50)
         /\ (playfulness Sample.toneBody = Some 0 ->
             TextingTone.playfulness (UserProfile.textingTone profile) = 50)
         /\ (responseLength Sample.toneBody = Some 0 ->
             TextingTone.responseLength (UserProfile.textingTone profile)
             = 50))
     /\ (forall stored,
            Storage.getProfile reached = Some stored ->
            TextingTone.positivity (UserProfile.textingTone stored) <> 0
            /\ TextingTone.playfulness (UserProfile.textingTone stored) <> 0
            /\ TextingTone.responseLength (UserProfile.textingTone stored)
               <> 0).
Proof.
  assert (H : textingTone Sample.body = Some Sample.toneBody) by reflexivity.
  split; [exact H|].
  exact (@C10_zero_tone_stored_as_50
           [POST_profile Sample.stamps Sample.body;
            POST_photos (1 # 2) Sample.firstUpload]
           Sample.stamps Sample.body Sample.toneBody H).
Defined.

(* ================================================================== *)
(** * Chat history *)
(* ================================================================== *)

Lemma post_chat_message_appends env content storage profile :
  Storage.getProfile storage = Some profile ->
  content <> EmptyString ->
  snd (post_chat_message env (Some content) storage)
  = Storage.mk (Some profile)
               (Storage.chatHistory storage ++ exchange (env, content))
               (Storage.simulationResults storage).
Proof.
  unfold Storage.getProfile. intros Hp Hc. unfold post_chat_message.
  destruct content as [|c content]; [contradiction|].
  unfold Storage.getProfile. rewrite Hp.
  cbn [snd]. unfold Storage.addMessage, Js.push, exchange.
  cbn [Storage.profile Storage.chatHistory Storage.simulationResults
       fst snd].
  now rewrite Hp, <- app_assoc.
Qed.

(** Send-message calls with a non-empty text append their exchanges to
    the history, in call order, and touch nothing else. *)
Lemma serve_sends calls storage profile :
  Storage.getProfile storage = Some profile ->
  Forall (fun call => snd call <> EmptyString) calls ->
  serve (map send calls) storage
  = Storage.mk (Some profile)
               (Storage.chatHistory storage ++ flat_map exchange calls)
               (Storage.simulationResults storage).
Proof.
  revert storage. induction calls as [|[env content] calls IH];
    intros storage Hp Hall.
  - cbn. rewrite app_nil_r. unfold Storage.getProfile in Hp.
    destruct storage; cbn in *. now subst.
  - inversion Hall as [|? ? Hc Hall']; subst. cbn [snd] in Hc.
    cbn [map serve fold_left send fst snd handle].
    change (fold_left (fun storage request => snd (handle request storage))
                      (map send calls) ?s)
      with (serve (map send calls) s).
    rewrite (@post_chat_message_appends env content storage profile Hp Hc).
    rewrite IH; [|reflexivity|exact Hall'].
    cbn [Storage.chatHistory Storage.simulationResults flat_map].
    now rewrite <- app_assoc.
Qed.

(** What one request that is neither a profile creation nor a simulation
    run does to a store that holds a profile: it appends the exchange of an
    accepted send-message call, and nothing otherwise; the profile slot
    stays filled. *)
Lemma handle_keeps_to_chat request storage :
  Storage.getProfile storage <> None ->
  keeps_to_chat request = true ->
  Storage.getChatHistory (snd (handle request storage))
  = Storage.getChatHistory storage
    ++ flat_map exchange (accepted_sends [request])
  /\ Storage.getProfile (snd (handle request storage)) <> None.
Proof.
  destruct storage as [[profile|] history results];
    unfold Storage.getProfile, Storage.getChatHistory;
    cbn [Storage.profile]; intros Hp Hk; [clear Hp|now elim Hp].
  destruct request; cbn [keeps_to_chat] in Hk; try discriminate;
    cbn [handle accepted_sends flat_map].
  - cbn. rewrite app_nil_r. split; [reflexivity|discriminate].
  - cbn. rewrite app_nil_r. split; [reflexivity|discriminate].
  - unfold post_photos, Storage.getProfile, Storage.updateProfile.
    cbn [Storage.profile].
    destruct (List.length files =? 0)%nat; cbn; rewrite app_nil_r;
      (split; [reflexivity|discriminate]).
  - unfold get_photos_verification, Storage.getProfile.
    cbn [Storage.profile].
    destruct (List.length (UserProfile.photos profile) =? 0)%nat; cbn;
      rewrite app_nil_r; (split; [reflexivity|discriminate]).
  - cbn. rewrite app_nil_r. split; [reflexivity|discriminate].
  - destruct content as [[|c content]|].
    + cbn. rewrite app_nil_r. split; [reflexivity|discriminate].
    + cbn [flat_map]. rewrite app_nil_r.
      rewrite (@post_chat_message_appends
                 env (String c content)
                 (Storage.mk (Some profile) history results) profile
                 eq_refl);
        [|discriminate].
      cbn. split; [reflexivity|discriminate].
    + cbn. rewrite app_nil_r. split; [reflexivity|discriminate].
  - unfold get_simulations_results.
    destruct (Storage.getSimulationResults
                (Storage.mk (Some profile) history results));
      cbn; rewrite app_nil_r; (split; [reflexivity|discriminate]).
Qed.

Lemma accepted_sends_cons request requests :
  accepted_sends (request :: requests)
  = accepted_sends [request] ++ accepted_sends requests.
Proof.
  destruct request; try reflexivity.
  destruct content as [[|c content]|]; reflexivity.
Qed.

Lemma serve_keeps_to_chat requests storage :
  Storage.getProfile storage <> None ->
  forallb keeps_to_chat requests = true ->
  Storage.getChatHistory (serve requests storage)
  = Storage.getChatHistory storage
    ++ flat_map exchange (accepted_sends requests).
Proof.
  revert storage. induction requests as [|request requests IH];
    intros storage Hp Hall.
  - cbn. now rewrite app_nil_r.
  - cbn [forallb] in Hall. apply andb_prop in Hall as [Hk Hall].
    destruct (@handle_keeps_to_chat request storage Hp Hk) as [Hh Hp'].
    change (serve (request :: requests) storage)
      with (serve requests (snd (handle request storage))).
    rewrite (IH _ Hp' Hall), accepted_sends_cons, flat_map_app, Hh.
    now rewrite app_assoc.
Qed.

Lemma exchanges_length calls :
  List.length (flat_map exchange calls) = (2 * List.length calls)%nat.
Proof.
  induction calls as [|call calls IH]; [reflexivity|].
  cbn [flat_map exchange app List.length]. rewrite IH. lia.
Qed.

(** C8 (amended). Let a profile be created by a POST /api/profile that
    carries a textingTone object, on a store whose chat history holds H
    messages (H = 0 on a server that has added no message before).  Let
    any requests follow, none of them a further POST /api/profile or a
    POST /api/simulations/run, and let N be the number of calls to
    POST /api/chat/message among them whose content is a non-empty string.
    Then the chat history returned by GET /api/chat/history has exactly
    H + 1 + 2N entries: the H earlier messages, the welcome message, then
    the user message and the agent reply of each of the N calls, in call
    order.  When the store held no message before, that is 1 + 2N
    entries. *)
Theorem C8_chat_history_length
        (env : Stamp * Stamp) (body : ProfileBody) (tone : ToneBody)
        (before : Storage.t) (requests : list Request) :
  textingTone body = Some tone ->
  forallb keeps_to_chat requests = true ->
  let created := snd (handle (POST_profile env body) before) in
  let storage := serve requests created in
  let welcome :=
    ChatMessage.mk (uuid (snd env)) ChatMessage.agent
                   (welcomeText (name body)) (now (snd env)) in
  let earlier := Storage.getChatHistory before in
  let calls := accepted_sends requests in
  exists history,
    fst (handle GET_chat_history storage) = ChatHistory history
    /\ history = earlier ++ welcome :: flat_map exchange calls
    /\ List.length history
       = (List.length earlier + 1 + 2 * List.length calls)%nat
    /\ (earlier = [] ->
        List.length history = (1 + 2 * List.length calls)%nat).
Proof.
  intros Ht Hall created storage welcome earlier calls.
  destruct (@post_profile_stores env body tone before Ht)
    as (profile & w & E & _ & _ & Hw).
  fold welcome in Hw. subst w.
  assert (Hc : created
               = Storage.mk (Some profile) (earlier ++ [welcome])
                            (Storage.simulationResults before)).
  { unfold created. cbn [handle]. now rewrite E. }
  assert (Hh : Storage.getChatHistory storage
               = earlier ++ welcome :: flat_map exchange calls).
  { unfold storage. rewrite serve_keeps_to_chat; [|rewrite Hc; discriminate|exact Hall].
    rewrite Hc. cbn [Storage.getChatHistory Storage.chatHistory].
    now rewrite <- app_assoc. }
  assert (Hl : List.length (earlier ++ welcome :: flat_map exchange calls)
               = (List.length earlier + 1 + 2 * List.length calls)%nat).
  { rewrite length_app. cbn [List.length]. rewrite exchanges_length. lia. }
  exists (earlier ++ welcome :: flat_map exchange calls).
  split; [cbn [handle get_chat_history fst]; now rewrite Hh|].
  split; [reflexivity|]. split; [exact Hl|].
  intros He. rewrite Hl, He. reflexivity.
Qed.

Lemma C8_chat_history_length_witness :
  textingTone Sample.body = Some Sample.toneBody
  /\ forallb keeps_to_chat Sample.session = true
  /\ let created :=
       snd (handle (POST_profile Sample.stamps Sample.body)
                   Sample.usedBefore) in
     let storage := serve Sample.session created in
     let welcome :=
       ChatMessage.mk (uuid (snd Sample.stamps)) ChatMessage.agent
                      (welcomeText (name Sample.body))
                      (now (snd Sample.stamps)) in
     let earlier := Storage.getChatHistory Sample.usedBefore in
     let calls := accepted_sends Sample.session in
     exists history,
       fst (handle GET_chat_history storage) = ChatHistory history
       /\ history = earlier ++ welcome :: flat_map exchange calls
       /\ List.length history
          = (List.length earlier + 1 + 2 * List.length calls)%nat
       /\ (earlier = [] ->
           List.length history = (1 + 2 * List.length calls)%nat).
Proof.
  assert (H : textingTone Sample.body = Some Sample.toneBody) by reflexivity.
  assert (F : forallb keeps_to_chat Sample.session = true) by reflexivity.
  split; [exact H|]. split; [exact F|].
  exact (@C8_chat_history_length Sample.stamps Sample.body Sample.toneBody
           Sample.usedBefore Sample.session H F).
Defined.

(** C8 as first stated fails: a call whose content is the empty string is
    answered with status 400 and adds nothing, so after that one call the
    history has 1 entry, not 3. *)
Lemma C8_empty_content_counterexample :
  let created :=
    serve [POST_profile Sample.stamps Sample.body] Storage.initial in
  let storage :=
    serve [POST_chat_message Sample.chatEnv (Some EmptyString)] created in
  fst (handle (POST_chat_message Sample.chatEnv (Some EmptyString)) created)
  = Failure 400 "Message content is required"
  /\ List.length (Storage.getChatHistory storage) = 1%nat
  /\ List.length (Storage.getChatHistory storage) <> (1 + 2 * 1)%nat.
Proof.
  cbv zeta. repeat split; try reflexivity. discriminate.
Qed.

(* ================================================================== *)
(** * Photo files and verification: further properties *)
(* ================================================================== *)

(** X1. [validatePhotoFile] accepts a file exactly when its MIME type is one
    of the four allowed types and its size is at most 5 MB (5242880 bytes,
    the bound included).  The type is checked first: a file of a wrong type
    is refused with the file-type message whatever its size, a file of an
    allowed type over the bound with the size message, and an accepted file
    carries no message. *)
Theorem validatePhotoFile_accepts_iff (file : File) :
  (PhotoFile.valid (PhotoFile.validatePhotoFile file) = true
   <-> In (mimetype file) ["image/jpeg"; "image/png"; "image/jpg"; "image/webp"]
       /\ size file <= 5242880)
  /\ (~ In (mimetype file) PhotoFile.ALLOWED_MIME_TYPES ->
      PhotoFile.validatePhotoFile file
      = PhotoFile.mkValidation false
          (Some "Invalid file type. Please upload JPEG, PNG, or WebP images."))
  /\ (In (mimetype file) PhotoFile.ALLOWED_MIME_TYPES ->
      5242880 < size file ->
      PhotoFile.validatePhotoFile file
      = PhotoFile.mkValidation false
          (Some "File too large. Maximum size is 5MB."))
  /\ (PhotoFile.valid (PhotoFile.validatePhotoFile file) = true ->
      PhotoFile.error (PhotoFile.validatePhotoFile file) = None).
Proof.
  assert (Hin : JsArray.includes PhotoFile.ALLOWED_MIME_TYPES (mimetype file)
                = true
                <-> In (mimetype file) PhotoFile.ALLOWED_MIME_TYPES).
  { unfold JsArray.includes. rewrite existsb_exists. split.
    - intros (x & Hx & E). apply String.eqb_eq in E. now subst.
    - intros H. exists (mimetype file). split; [assumption|].
      apply String.eqb_refl. }
  change ["image/jpeg"; "image/png"; "image/jpg"; "image/webp"]
    with PhotoFile.ALLOWED_MIME_TYPES.
  unfold PhotoFile.validatePhotoFile.
  change PhotoFile.MAX_FILE_SIZE with 5242880.
  destruct (JsArray.includes PhotoFile.ALLOWED_MIME_TYPES (mimetype file))
    eqn:E; cbn [negb].
  - assert (Hm : In (mimetype file) PhotoFile.ALLOWED_MIME_TYPES)
      by now apply Hin.
    rewrite Z.gtb_ltb.
    destruct (Z.ltb_spec 5242880 (size file)); cbn [PhotoFile.valid
                                                      PhotoFile.error].
    + repeat split; try discriminate; try reflexivity; try tauto.
      intros [_ H']. lia.
    + repeat split; try reflexivity; try tauto; try lia.
  - assert (Hm : ~ In (mimetype file) PhotoFile.ALLOWED_MIME_TYPES).
    { intros H. apply Hin in H. discriminate. }
    cbn [PhotoFile.valid PhotoFile.error].
    repeat split; try discriminate; try reflexivity; try tauto.
Qed.

(** X2. For every list of photo filenames (and a random draw in [0,1)),
    [analyzePhotos] reports failed exactly when the list is empty, the
    confidence is 0 exactly when the list is empty, and the confidence is a
    percentage: within [0,100], and within [75,95) as soon as there is a
    photo. *)
Theorem analyzePhotos_failed_iff_empty (r : Q) (photoPaths : list string) :
  (0 <= r < 1)%Q ->
  let v := PhotoVerification.analyzePhotos r photoPaths in
  (PhotoVerification.status v = PhotoVerification.failed
   <-> photoPaths = [])
  /\ (PhotoVerification.confidence v = 0 <-> photoPaths = [])
  /\ 0 <= PhotoVerification.confidence v <= 100
  /\ (photoPaths <> [] -> 75 <= PhotoVerification.confidence v < 95).
Proof.
  intros Hr v. subst v.
  pose proof (mockConfidence_range Hr) as Hc.
  unfold PhotoVerification.analyzePhotos.
  destruct photoPaths as [|p [|q ps]]; cbn [List.length Nat.eqb].
  - cbn. repeat split; intros; try congruence; try lia.
  - cbn. repeat split; intros; try congruence; try lia.
  - cbv zeta. set (c := 80 + Js.Math_floor (r * 15)) in *.
    destruct (c >=? 85) eqn:E1; [|destruct (c >=? 70) eqn:E2];
      cbn [PhotoVerification.status PhotoVerification.confidence];
      repeat split; intros; try congruence; try lia.
Qed.

Lemma analyzePhotos_failed_iff_empty_witness :
  (0 <= 1 # 3 < 1)%Q
  /\ let v := PhotoVerification.analyzePhotos (1 # 3) ["a.jpg"; "b.jpg"] in
     (PhotoVerification.status v = PhotoVerification.failed
      <-> ["a.jpg"; "b.jpg"] = [])
     /\ (PhotoVerification.confidence v = 0 <-> ["a.jpg"; "b.jpg"] = [])
     /\ 0 <= PhotoVerification.confidence v <= 100
     /\ (["a.jpg"; "b.jpg"] <> [] ->
         75 <= PhotoVerification.confidence v < 95).
Proof.
  assert (H : (0 <= 1 # 3 < 1)%Q) by (split; [discriminate | reflexivity]).
  split; [exact H|].
  exact (@analyzePhotos_failed_iff_empty (1 # 3) ["a.jpg"; "b.jpg"] H).
Defined.

(* ================================================================== *)
(** * The scenario generator: further properties *)
(* ================================================================== *)

Lemma mod_shift (i k n : nat) : ((i + k * n) mod n = i mod n)%nat.
Proof. apply Nat.Div0.mod_add. Qed.

(** X3. The generator is cyclic in the scenario number: the archetype
    repeats every 10 scenarios, the issue every 5, the opening message every
    4, and with the same random draw the whole record repeats every 20. *)
Theorem generateSimulation_cycle (r : Q) (profileSummary : string) (i : nat) :
  match_archetype (Llm.generateSimulation r profileSummary (i + 10))
  = match_archetype (Llm.generateSimulation r profileSummary i)
  /\ potential_issue (Llm.generateSimulation r profileSummary (i + 5))
     = potential_issue (Llm.generateSimulation r profileSummary i)
  /\ match_initial_message (Llm.generateSimulation r profileSummary (i + 4))
     = match_initial_message (Llm.generateSimulation r profileSummary i)
  /\ Llm.generateSimulation r profileSummary (i + 20)
     = Llm.generateSimulation r profileSummary i.
Proof.
  assert (H10 : ((i + 10) mod 10 = i mod 10)%nat) by apply (mod_shift i 1 10).
  assert (H5 : ((i + 5) mod 5 = i mod 5)%nat) by apply (mod_shift i 1 5).
  assert (H4 : ((i + 4) mod 4 = i mod 4)%nat) by apply (mod_shift i 1 4).
  assert (T10 : ((i + 20) mod 10 = i mod 10)%nat) by apply (mod_shift i 2 10).
  assert (T5 : ((i + 20) mod 5 = i mod 5)%nat) by apply (mod_shift i 4 5).
  assert (T4 : ((i + 20) mod 4 = i mod 4)%nat) by apply (mod_shift i 5 4).
  unfold Llm.generateSimulation, Llm.openers, Llm.at_index.
  change (List.length Llm.archetypes) with 10%nat.
  change (List.length Llm.issues) with 5%nat.
  cbn [match_archetype potential_issue match_initial_message].
  cbv zeta. cbn [List.length].
  rewrite H10, H5, !H4, T10, T5, !T4. repeat split.
Qed.

(** X4. Whatever the scenario number, no field of a generated record is
    [undefined]: the archetype is one of the ten labels, the issue one of
    the five slots and the opening message one of the four openers of that
    scenario; with a random draw in [0,1) the score is an integer of
    [60,95), inside the declared range 0-100. *)
Theorem generateSimulation_fields_defined
        (r : Q) (profileSummary : string) (i : nat) :
  (0 <= r < 1)%Q ->
  let simulation := Llm.generateSimulation r profileSummary i in
  In (match_archetype simulation) Llm.archetypes
  /\ In (potential_issue simulation) Llm.issues
  /\ In (match_initial_message simulation) (Llm.openers i)
  /\ 60 <= compatibility_score simulation < 95
  /\ 0 <= compatibility_score simulation <= 100.
Proof.
  intros Hr simulation. subst simulation.
  unfold Llm.generateSimulation, Llm.at_index.
  cbn [match_archetype potential_issue match_initial_message
       compatibility_score].
  pose proof (@floor_random_range r Hr 35 ltac:(lia)) as Hs.
  change (inject_Z 35) with 35%Q in Hs.
  repeat split; try lia; apply nth_In; apply Nat.mod_upper_bound;
    discriminate.
Qed.

Lemma generateSimulation_fields_defined_witness :
  (0 <= 9 # 10 < 1)%Q
  /\ let simulation := Llm.generateSimulation (9 # 10) "summary" 37 in
     In (match_archetype simulation) Llm.archetypes
     /\ In (potential_issue simulation) Llm.issues
     /\ In (match_initial_message simulation) (Llm.openers 37)
     /\ 60 <= compatibility_score simulation < 95
     /\ 0 <= compatibility_score simulation <= 100.
Proof.
  assert (H : (0 <= 9 # 10 < 1)%Q) by (split; [discriminate | reflexivity]).
  split; [exact H|].
  exact (@generateSimulation_fields_defined (9 # 10) "summary" 37 H).
Defined.

Lemma generateBatch_archetypes rnd ps :
  map match_archetype (Simulations.generateBatch rnd ps)
  = map (fun i => nth (i mod 10) Llm.archetypes EmptyString) (seq 0 50).
Proof.
  unfold Simulations.generateBatch. rewrite map_map. reflexivity.
Qed.

Lemma present_issues_of_fields sims :
  Spec.present_issues sims
  = flat_map (fun issue => match issue with Some s => [s] | None => [] end)
             (map potential_issue sims).
Proof. symmetry. apply issues_present. Qed.

(** X5. Every batch of a simulation run has the same make-up, whatever the
    random draws: each of the ten archetypes labels exactly 5 of the 50
    records, each of the four issue texts is reported by exactly 10, and
    exactly 10 records report no issue. *)
Theorem generateBatch_composition (rnd : nat -> Q) (profileSummary : string) :
  let batch := Simulations.generateBatch rnd profileSummary in
  (forall archetype,
      In archetype Llm.archetypes ->
      count_occ string_dec (map match_archetype batch) archetype = 5%nat)
  /\ (forall issue,
         In (Some issue) Llm.issues -> Spec.frequency issue batch = 10)
  /\ List.length (filter (fun sim => match potential_issue sim with
                                     | None => true
                                     | Some _ => false
                                     end) batch) = 10%nat.
Proof.
  intros batch. subst batch. split; [|split].
  - intros archetype Hin. rewrite generateBatch_archetypes.
    cbn in Hin.
    repeat (destruct Hin as [<-|Hin]; [vm_compute; reflexivity|]).
    contradiction.
  - intros issue Hin. unfold Spec.frequency.
    rewrite present_issues_of_fields, generateBatch_issue_fields.
    cbn in Hin.
    repeat (destruct Hin as [E|Hin];
            [try discriminate; injection E as <-; vm_compute; reflexivity|]).
    contradiction.
  - rewrite <- (length_map potential_issue).
    assert (E : forall l,
               map potential_issue
                   (filter (fun sim => match potential_issue sim with
                                       | None => true
                                       | Some _ => false
                                       end) l)
               = filter (fun o : option string =>
                           match o with None => true | Some _ => false end)
                        (map potential_issue l)).
    { induction l as [|x l IH]; [reflexivity|]. cbn [filter map].
      destruct (potential_issue x) eqn:Ex; cbn [map]; rewrite ?Ex, IH;
        reflexivity. }
    rewrite E, generateBatch_issue_fields. reflexivity.
Qed.

(* ================================================================== *)
(** * The aggregator: further properties *)
(* ================================================================== *)

Lemma archetype_means_labels sims :
  map fst (Spec.archetype_means sims)
  = Spec.first_seen (map match_archetype sims).
Proof.
  unfold Spec.archetype_means. rewrite map_map. cbn [fst]. apply map_id.
Qed.

Lemma topArchetypes_perm_prefix sims :
  exists ranked : list (string * Q),
    Permutation (map fst ranked)
                (Spec.first_seen (map match_archetype sims))
    /\ Simulations.topArchetypes sims = firstn 5 (map fst ranked).
Proof.
  exists (Js.sort Simulations.byAvgScoreDesc (Spec.archetype_means sims)).
  split; [|apply topArchetypes_sorted_means].
  rewrite <- archetype_means_labels. apply Permutation_map.
  apply sort_perm.
Qed.

(** X6. For every batch of records, top_archetypes has no duplicate label,
    holds only labels that occur in the batch, and its length is exactly the
    smaller of 5 and the number of distinct labels of the batch (so an empty
    batch gives an empty list). *)
Theorem topArchetypes_distinct_labels
        (simulations : list SimulationResult.t)
        (vibeAnalysis : Llm.VibeAnalysis) (profile : UserProfile.t) :
  let top :=
    SimulationSummary.top_archetypes
      (Simulations.analyzeSimulations simulations vibeAnalysis profile) in
  NoDup top
  /\ (forall archetype,
         In archetype top ->
         In archetype (map match_archetype simulations))
  /\ List.length top
     = Nat.min 5 (List.length (nodup string_dec
                                     (map match_archetype simulations))).
Proof.
  cbn [Simulations.analyzeSimulations SimulationSummary.top_archetypes].
  destruct (topArchetypes_perm_prefix simulations) as (ranked & Hp & ->).
  assert (Hnd : NoDup (map fst ranked)).
  { apply (Permutation_NoDup (Permutation_sym Hp)), first_seen_NoDup. }
  split; [|split].
  - rewrite <- (firstn_skipn 5 (map fst ranked)) in Hnd.
    now apply NoDup_app_remove_r in Hnd.
  - intros a Ha. apply In_firstn in Ha.
    apply (Permutation_in _ Hp) in Ha. rewrite first_seen_In in Ha.
    exact Ha.
  - rewrite length_firstn, (Permutation_length Hp), first_seen_length.
    reflexivity.
Qed.

(** X7. In every simulation run top_archetypes holds exactly 5 labels, all
    different, each one of the generator's ten archetypes. *)
Theorem run_top_archetypes
        (rnd : nat -> Q) (profileSummary : string)
        (vibeAnalysis : Llm.VibeAnalysis) (profile : UserProfile.t) :
  let top :=
    SimulationSummary.top_archetypes
      (Simulations.analyzeSimulations
         (Simulations.generateBatch rnd profileSummary)
         vibeAnalysis profile) in
  List.length top = 5%nat
  /\ NoDup top
  /\ (forall archetype, In archetype top -> In archetype Llm.archetypes).
Proof.
  cbn [Simulations.analyzeSimulations SimulationSummary.top_archetypes].
  destruct (topArchetypes_perm_prefix
              (Simulations.generateBatch rnd profileSummary))
    as (ranked & Hp & ->).
  rewrite generateBatch_archetypes in Hp.
  assert (Hnd : NoDup (map fst ranked)).
  { apply (Permutation_NoDup (Permutation_sym Hp)), first_seen_NoDup. }
  split; [|split].
  - rewrite length_firstn, (Permutation_length Hp). reflexivity.
  - rewrite <- (firstn_skipn 5 (map fst ranked)) in Hnd.
    now apply NoDup_app_remove_r in Hnd.
  - intros a Ha. apply In_firstn in Ha.
    apply (Permutation_in _ Hp) in Ha. rewrite first_seen_In in Ha.
    apply in_map_iff in Ha. destruct Ha as (i & <- & _).
    apply nth_In. apply Nat.mod_upper_bound. discriminate.
Qed.

(** The rounded mean of the model stays between any two integers that
    bound the scores. *)
Lemma round_mean_between (simulations : list SimulationResult.t) (lo hi : Z) :
  simulations <> [] ->
  Forall (fun sim => lo <= compatibility_score sim <= hi) simulations ->
  lo <= Simulations.averageCompatibility simulations <= hi.
Proof.
  intros Hne Hall. rewrite averageCompatibility_round_mean.
  apply Math_round_bounds. apply mean_bounds.
  - intros E. apply map_eq_nil in E. contradiction.
  - now rewrite Forall_map.
Qed.

(** X8. For every non-empty batch (of fewer than 2^32 records, the most a
    JavaScript array holds) whose scores are integers of the declared range
    0-100, average_compatibility lies between any two bounds lo and hi of
    that range between which all the scores lie; in particular it lies
    within 0-100.  On such batches the sum of the scores stays far below
    2^53, so the arithmetic of the code is the exact one of the model. *)
Theorem averageCompatibility_within_bounds
        (simulations : list SimulationResult.t) (lo hi : Z) :
  simulations <> [] ->
  Z.of_nat (List.length simulations) < 2 ^ 32 ->
  0 <= lo -> hi <= 100 ->
  Forall (fun sim => lo <= compatibility_score sim <= hi) simulations ->
  lo <= Simulations.averageCompatibility simulations <= hi
  /\ 0 <= Simulations.averageCompatibility simulations <= 100.
Proof.
  intros Hne _ Hlo Hhi Hall.
  pose proof (@round_mean_between simulations lo hi Hne Hall) as H.
  split; [exact H|lia].
Qed.

Lemma averageCompatibility_within_bounds_witness :
  Sample.batch <> []
  /\ Z.of_nat (List.length Sample.batch) < 2 ^ 32
  /\ 0 <= 65 /\ 90 <= 100
  /\ Forall (fun sim => 65 <= compatibility_score sim <= 90) Sample.batch
  /\ 65 <= Simulations.averageCompatibility Sample.batch <= 90
  /\ 0 <= Simulations.averageCompatibility Sample.batch <= 100.
Proof.
  assert (H1 : Sample.batch <> []) by discriminate.
  assert (H2 : Z.of_nat (List.length Sample.batch) < 2 ^ 32)
    by (vm_compute; reflexivity).
  assert (H3 : 0 <= 65) by lia.
  assert (H4 : 90 <= 100) by lia.
  assert (H5 : Forall (fun sim => 65 <= compatibility_score sim <= 90)
                      Sample.batch).
  { repeat constructor; cbn; lia. }
  split; [exact H1|]. split; [exact H2|]. split; [exact H3|].
  split; [exact H4|]. split; [exact H5|].
  exact (@averageCompatibility_within_bounds Sample.batch 65 90
           H1 H2 H3 H4 H5).
Defined.

Lemma generateBatch_average_range rnd ps :
  (forall i, (i < 50)%nat -> (0 <= rnd i < 1)%Q) ->
  60 <= Simulations.averageCompatibility (Simulations.generateBatch rnd ps)
  <= 94.
Proof.
  intros Hr. apply round_mean_between; [discriminate|].
  eapply Forall_impl; [|exact (@generateBatch_scores rnd ps Hr)].
  cbn. intros; lia.
Qed.

Lemma In_existsb_eqb (x : string) (l : list string) :
  In x l <-> existsb (String.eqb x) l = true.
Proof.
  rewrite existsb_exists. split.
  - intros H. exists x. split; [assumption | apply String.eqb_refl].
  - intros (y & Hy & E). apply String.eqb_eq in E. now subst.
Qed.

(** X9. In every simulation run (random draws in [0,1)) the coaching tips
    start with the high-score or the medium-score tip - the low-score tip
    never occurs, the average being at least 60 -, always hold the tip on
    open-ended questions, and number between 3 and 5. *)
Theorem run_coaching_tips
        (rnd : nat -> Q) (profileSummary : string)
        (vibeAnalysis : Llm.VibeAnalysis) (profile : UserProfile.t) :
  (forall i, (i < 50)%nat -> (0 <= rnd i < 1)%Q) ->
  let tips :=
    SimulationSummary.coaching_tips
      (Simulations.analyzeSimulations
         (Simulations.generateBatch rnd profileSummary)
         vibeAnalysis profile) in
  (hd_error tips = Some Simulations.tip_score_high
   \/ hd_error tips = Some Simulations.tip_score_mid)
  /\ ~ In Simulations.tip_score_low tips
  /\ In Simulations.tip_questions tips
  /\ (3 <= List.length tips <= 5)%nat.
Proof.
  intros Hr.
  cbn [Simulations.analyzeSimulations SimulationSummary.coaching_tips].
  pose proof (@generateBatch_average_range rnd profileSummary Hr) as Havg.
  rewrite generateBatch_commonIssues.
  set (avg := Simulations.averageCompatibility
                (Simulations.generateBatch rnd profileSummary)) in *.
  unfold Simulations.generateCoachingTips, Js.push, Js.slice0.
  match goal with
  | |- context [Js.some ?p ?l] =>
      replace (Js.some p l) with true by (vm_compute; reflexivity)
  end.
  match goal with
  | |- context [Js.some ?p ?l] =>
      replace (Js.some p l) with true by (vm_compute; reflexivity)
  end.
  cbv zeta. rewrite !Z.geb_leb, !Z.gtb_ltb.
  rewrite !In_existsb_eqb.
  destruct (Z.leb_spec 75 avg);
    [|destruct (Z.leb_spec 60 avg); [|lia]];
    destruct (TextingTone.positivity (UserProfile.textingTone profile) <? 50);
    destruct (TextingTone.playfulness (UserProfile.textingTone profile) <? 40);
    destruct (80 <? TextingTone.playfulness (UserProfile.textingTone profile));
    destruct (TextingTone.responseLength (UserProfile.textingTone profile)
              <? 30);
    destruct (80 <? TextingTone.responseLength
                      (UserProfile.textingTone profile));
    cbn [app firstn hd_error List.length];
    (split; [auto|]); (split; [vm_compute; discriminate|]);
    (split; [vm_compute; reflexivity | lia]).
Qed.

Lemma run_coaching_tips_witness :
  (forall i, (i < 50)%nat -> (0 <= (fun _ : nat => 1 # 4) i < 1)%Q)
  /\ let tips :=
       SimulationSummary.coaching_tips
         (Simulations.analyzeSimulations
            (Simulations.generateBatch (fun _ => 1 # 4) "summary")
            (Llm.analyzeVibe "bio" []) Sample.profile) in
     (hd_error tips = Some Simulations.tip_score_high
      \/ hd_error tips = Some Simulations.tip_score_mid)
     /\ ~ In Simulations.tip_score_low tips
     /\ In Simulations.tip_questions tips
     /\ (3 <= List.length tips <= 5)%nat.
Proof.
  assert (H : forall i, (i < 50)%nat -> (0 <= (fun _ : nat => 1 # 4) i < 1)%Q).
  { intros i _. split; [discriminate | reflexivity]. }
  split; [exact H|].
  exact (@run_coaching_tips (fun _ => 1 # 4) "summary"
           (Llm.analyzeVibe "bio" []) Sample.profile H).
Defined.

(* ================================================================== *)
(** * The store and the handlers: further properties *)
(* ================================================================== *)

(** X10. [updateProfile] returns what it stores: on a store with no profile
    it returns null and changes nothing; otherwise it returns the merged
    profile, which is then the stored one.  It never touches the chat
    history or the simulation results, and an update that carries no key
    leaves the whole store as it was. *)
Theorem updateProfile_returns_stored
        (this : Storage.t) (updates : UserProfile.partial) :
  let result := fst (Storage.updateProfile this updates) in
  let this' := snd (Storage.updateProfile this updates) in
  result = Storage.getProfile this'
  /\ (Storage.getProfile this = None -> result = None /\ this' = this)
  /\ (forall old, Storage.getProfile this = Some old ->
                  result = Some (UserProfile.spread old updates))
  /\ Storage.getChatHistory this' = Storage.getChatHistory this
  /\ Storage.getSimulationResults this' = Storage.getSimulationResults this
  /\ snd (Storage.updateProfile
            this (UserProfile.mkPartial None None None None None None None
                                        None None None None))
     = this.
Proof.
  unfold Storage.updateProfile, Storage.getProfile, Storage.getChatHistory,
    Storage.getSimulationResults.
  destruct this as [[old|] history results]; cbn.
  - repeat split; try reflexivity; try discriminate.
    + intros old' E. now injection E as <-.
    + now destruct old.
  - repeat split; try reflexivity. intros old' E. discriminate.
Qed.

(** X11. The five GET endpoints are read-only: whatever the store holds,
    answering one of them leaves it exactly as it was. *)
Theorem get_requests_read_only (storage : Storage.t) :
  (forall timestamp, snd (handle (GET_health timestamp) storage) = storage)
  /\ snd (handle GET_profile storage) = storage
  /\ (forall rnd, snd (handle (GET_photos_verification rnd) storage) = storage)
  /\ snd (handle GET_chat_history storage) = storage
  /\ snd (handle GET_simulations_results storage) = storage.
Proof.
  cbn [handle]. unfold get_profile, get_photos_verification,
    get_chat_history, get_simulations_results.
  repeat split.
  - now destruct (Storage.getProfile storage).
  - intros rnd. destruct (Storage.getProfile storage) as [p|]; [|reflexivity].
    now destruct (List.length (UserProfile.photos p) =? 0)%nat.
  - now destruct (Storage.getSimulationResults storage).
Qed.

(** X12. A profile posted with a textingTone object is what an immediately
    following GET /api/profile returns: the same object the POST response
    carried. *)
Theorem profile_post_then_get
        (env : Stamp * Stamp) (body : ProfileBody) (tone : ToneBody)
        (storage : Storage.t) :
  textingTone body = Some tone ->
  let storage' := snd (handle (POST_profile env body) storage) in
  exists profile welcome,
    fst (handle (POST_profile env body) storage)
    = ProfileCreated profile welcome
    /\ handle GET_profile storage' = (ProfileFound profile, storage').
Proof.
  intros Ht. cbn [handle].
  destruct (@post_profile_stores env body tone storage Ht)
    as (profile & welcome & E & _).
  exists profile, welcome. rewrite E. cbn [fst snd]. split; reflexivity.
Qed.

Lemma profile_post_then_get_witness :
  textingTone Sample.body = Some Sample.toneBody
  /\ let storage' :=
       snd (handle (POST_profile Sample.stamps Sample.body)
                   Sample.uploadedOnce) in
     exists profile welcome,
       fst (handle (POST_profile Sample.stamps Sample.body)
                   Sample.uploadedOnce)
       = ProfileCreated profile welcome
       /\ handle GET_profile storage' = (ProfileFound profile, storage').
Proof.
  assert (H : textingTone Sample.body = Some Sample.toneBody) by reflexivity.
  split; [exact H|].
  exact (@profile_post_then_get Sample.stamps Sample.body Sample.toneBody
           Sample.uploadedOnce H).
Defined.

(** X13. The profile slot is single: a POST /api/profile with a textingTone
    object stores a profile that depends on the request alone - nothing of
    a profile stored before survives, and the photo list starts empty
    again.  The chat history is not reset: it keeps every earlier message
    and gains one more welcome message; stored simulation results stay. *)
Theorem profile_post_overwrites
        (env : Stamp * Stamp) (body : ProfileBody) (tone : ToneBody)
        (storage : Storage.t) :
  textingTone body = Some tone ->
  let storage' := snd (handle (POST_profile env body) storage) in
  (forall other,
      Storage.getProfile (snd (handle (POST_profile env body) other))
      = Storage.getProfile storage')
  /\ (exists profile,
         Storage.getProfile storage' = Some profile
         /\ UserProfile.photos profile = []
         /\ UserProfile.name profile = name body)
  /\ Storage.getChatHistory storage'
     = Storage.getChatHistory storage
       ++ [ChatMessage.mk (uuid (snd env)) ChatMessage.agent
                          (welcomeText (name body)) (now (snd env))]
  /\ Storage.getSimulationResults storage'
     = Storage.getSimulationResults storage.
Proof.
  intros Ht. cbn [handle]. unfold post_profile. rewrite Ht.
  cbn. repeat split. eexists. repeat split.
Qed.

Lemma profile_post_overwrites_witness :
  textingTone Sample.body = Some Sample.toneBody
  /\ let storage' :=
       snd (handle (POST_profile Sample.stamps Sample.body)
                   Sample.uploadedOnce) in
     (forall other,
         Storage.getProfile
           (snd (handle (POST_profile Sample.stamps Sample.body) other))
         = Storage.getProfile storage')
     /\ (exists profile,
            Storage.getProfile storage' = Some profile
            /\ UserProfile.photos profile = []
            /\ UserProfile.name profile = name Sample.body)
     /\ Storage.getChatHistory storage'
        = Storage.getChatHistory Sample.uploadedOnce
          ++ [ChatMessage.mk (uuid (snd Sample.stamps)) ChatMessage.agent
                             (welcomeText (name Sample.body))
                             (now (snd Sample.stamps))]
     /\ Storage.getSimulationResults storage'
        = Storage.getSimulationResults Sample.uploadedOnce.
Proof.
  assert (H : textingTone Sample.body = Some Sample.toneBody) by reflexivity.
  split; [exact H|].
  exact (@profile_post_overwrites Sample.stamps Sample.body Sample.toneBody
           Sample.uploadedOnce H).
Defined.

(** X14. While no profile is stored, these endpoints answer 404 and change
    nothing: GET /api/profile, GET /api/photos/verification,
    POST /api/chat/message with a non-empty text, and
    POST /api/simulations/run.  (POST /api/photos is left out: its upload
    middleware runs before the handler looks for the profile.) *)
Theorem no_profile_not_found (storage : Storage.t) :
  Storage.getProfile storage = None ->
  handle GET_profile storage = (Failure 404 "Profile not found", storage)
  /\ (forall rnd,
         handle (GET_photos_verification rnd) storage
         = (Failure 404 "No photos found", storage))
  /\ (forall env content,
         content <> EmptyString ->
         handle (POST_chat_message env (Some content)) storage
         = (Failure 404 "Profile not found", storage))
  /\ (forall env,
         handle (POST_simulations_run env) storage
         = (Failure 404 "Profile not found", storage)).
Proof.
  intros Hp. cbn [handle].
  unfold get_profile, get_photos_verification,
    post_chat_message, post_simulations_run.
  rewrite Hp. repeat split.
  intros env [|c content] Hc; [contradiction | reflexivity].
Qed.

Lemma no_profile_not_found_witness :
  Storage.getProfile Storage.initial = None
  /\ handle GET_profile Storage.initial
     = (Failure 404 "Profile not found", Storage.initial)
  /\ (forall rnd,
         handle (GET_photos_verification rnd) Storage.initial
         = (Failure 404 "No photos found", Storage.initial))
  /\ (forall env content,
         content <> EmptyString ->
         handle (POST_chat_message env (Some content)) Storage.initial
         = (Failure 404 "Profile not found", Storage.initial))
  /\ (forall env,
         handle (POST_simulations_run env) Storage.initial
         = (Failure 404 "Profile not found", Storage.initial)).
Proof.
  assert (H : Storage.getProfile Storage.initial = None) by reflexivity.
  split; [exact H|].
  exact (@no_profile_not_found Storage.initial H).
Defined.

(** X15. Bad input is refused with status 400 and changes nothing.  A chat
    message whose content is missing, not a string or empty is refused
    before the profile is looked up, so the answer is 400 even when no
    profile is stored; an upload without files is refused with 400 once a
    profile is stored. *)
Theorem bad_input_rejected (storage : Storage.t) :
  (forall env,
      handle (POST_chat_message env None) storage
      = (Failure 400 "Message content is required", storage))
  /\ (forall env,
         handle (POST_chat_message env (Some EmptyString)) storage
         = (Failure 400 "Message content is required", storage))
  /\ (forall rnd,
         Storage.getProfile storage <> None ->
         handle (POST_photos rnd []) storage
         = (Failure 400 "No files uploaded", storage)).
Proof.
  cbn [handle]. unfold post_chat_message, post_photos. repeat split.
  intros rnd Hp. destruct (Storage.getProfile storage); [reflexivity|].
  now elim Hp.
Qed.

Lemma analyzePhotos_nonempty (r : Q) (photoPaths : list string) :
  (0 <= r < 1)%Q -> photoPaths <> [] ->
  PhotoVerification.status (PhotoVerification.analyzePhotos r photoPaths)
  <> PhotoVerification.failed
  /\ 75 <= PhotoVerification.confidence
             (PhotoVerification.analyzePhotos r photoPaths) < 95.
Proof.
  intros Hr Hne. pose proof (mockConfidence_range Hr) as Hc.
  unfold PhotoVerification.analyzePhotos.
  destruct photoPaths as [|p [|q ps]]; cbn [List.length Nat.eqb].
  - now elim Hne.
  - cbn. split; [discriminate | lia].
  - cbv zeta. set (c := 80 + Js.Math_floor (r * 15)) in *.
    destruct (c >=? 85) eqn:E1; [|destruct (c >=? 70) eqn:E2];
      cbn [PhotoVerification.status PhotoVerification.confidence];
      split; try discriminate; lia.
Qed.

(** X16. A successful upload never reports a failed verification (random
    draw in [0,1)): the handler refuses an empty upload before it verifies,
    so the status is success or inconclusive and the confidence lies in
    [75,95); a single file gives success with confidence 75. *)
Theorem upload_verification_never_failed
        (rnd : Q) (files : list File) (storage : Storage.t)
        (photos : list string) (verification : PhotoVerification.t) :
  (0 <= rnd < 1)%Q ->
  fst (handle (POST_photos rnd files) storage)
  = PhotosStored photos verification ->
  PhotoVerification.status verification <> PhotoVerification.failed
  /\ 75 <= PhotoVerification.confidence verification < 95
  /\ (List.length files = 1%nat ->
      PhotoVerification.status verification = PhotoVerification.success
      /\ PhotoVerification.confidence verification = 75).
Proof.
  intros Hr. cbn [handle]. unfold post_photos.
  destruct (Storage.getProfile storage); [|discriminate].
  destruct files as [|f files]; [discriminate|].
  cbn [List.length Nat.eqb fst]. intros E. injection E as _ <-.
  assert (Hne : map filename (f :: files) <> []) by discriminate.
  pose proof (@analyzePhotos_nonempty
                rnd (map filename (f :: files)) Hr Hne) as (H1 & H4).
  split; [|split].
  - exact H1.
  - exact H4.
  - intros Hlen. destruct files; [|discriminate]. split; reflexivity.
Qed.

Lemma upload_verification_never_failed_witness :
  (0 <= 1 # 2 < 1)%Q
  /\ fst (handle (POST_photos (1 # 2) Sample.secondUpload) Sample.onboarded)
     = PhotosStored ["77b01e"; "c4d2aa"]
                    (PhotoVerification.analyzePhotos (1 # 2)
                                                     ["77b01e"; "c4d2aa"])
  /\ PhotoVerification.status
       (PhotoVerification.analyzePhotos (1 # 2) ["77b01e"; "c4d2aa"])
     <> PhotoVerification.failed
  /\ 75 <= PhotoVerification.confidence
             (PhotoVerification.analyzePhotos (1 # 2) ["77b01e"; "c4d2aa"])
     < 95
  /\ (List.length Sample.secondUpload = 1%nat ->
      PhotoVerification.status
        (PhotoVerification.analyzePhotos (1 # 2) ["77b01e"; "c4d2aa"])
      = PhotoVerification.success
      /\ PhotoVerification.confidence
           (PhotoVerification.analyzePhotos (1 # 2) ["77b01e"; "c4d2aa"])
         = 75).
Proof.
  assert (H : (0 <= 1 # 2 < 1)%Q) by (split; [discriminate | reflexivity]).
  assert (E : fst (handle (POST_photos (1 # 2) Sample.secondUpload)
                          Sample.onboarded)
              = PhotosStored ["77b01e"; "c4d2aa"]
                  (PhotoVerification.analyzePhotos (1 # 2)
                                                   ["77b01e"; "c4d2aa"]))
    by reflexivity.
  split; [exact H|]. split; [exact E|].
  exact (@upload_verification_never_failed (1 # 2) Sample.secondUpload
           Sample.onboarded _ _ H E).
Defined.

(** X17. GET /api/photos/verification verifies what the last upload stored:
    after a successful upload it runs the verification over exactly the
    uploaded filenames; on a profile that was just created (no upload yet)
    it answers 404. *)
Theorem verification_follows_upload
        (rnd rnd' : Q) (files : list File) (storage : Storage.t)
        (env : Stamp * Stamp) (body : ProfileBody) (tone : ToneBody) :
  Storage.getProfile storage <> None ->
  files <> [] ->
  textingTone body = Some tone ->
  fst (handle (GET_photos_verification rnd')
              (snd (handle (POST_photos rnd files) storage)))
  = Verified (PhotoVerification.analyzePhotos rnd' (map filename files))
  /\ fst (handle (GET_photos_verification rnd')
                 (snd (handle (POST_profile env body) storage)))
     = Failure 404 "No photos found".
Proof.
  intros Hp Hf Ht. cbn [handle]. split.
  - unfold post_photos, Storage.updateProfile, Storage.getProfile in *.
    destruct (Storage.profile storage) as [old|] eqn:E; [|now elim Hp].
    destruct files as [|f files]; [now elim Hf|].
    cbn [List.length Nat.eqb snd].
    unfold get_photos_verification, Storage.getProfile. cbn. reflexivity.
  - unfold post_profile. rewrite Ht. reflexivity.
Qed.

Lemma verification_follows_upload_witness :
  Storage.getProfile Sample.onboarded <> None
  /\ Sample.secondUpload <> []
  /\ textingTone Sample.body = Some Sample.toneBody
  /\ fst (handle (GET_photos_verification (1 # 3))
                 (snd (handle (POST_photos (1 # 2) Sample.secondUpload)
                              Sample.onboarded)))
     = Verified (PhotoVerification.analyzePhotos
                   (1 # 3) (map filename Sample.secondUpload))
  /\ fst (handle (GET_photos_verification (1 # 3))
                 (snd (handle (POST_profile Sample.stamps Sample.body)
                              Sample.onboarded)))
     = Failure 404 "No photos found".
Proof.
  assert (H1 : Storage.getProfile Sample.onboarded <> None) by discriminate.
  assert (H2 : Sample.secondUpload <> []) by discriminate.
  assert (H3 : textingTone Sample.body = Some Sample.toneBody)
    by reflexivity.
  split; [exact H1|]. split; [exact H2|]. split; [exact H3|].
  exact (@verification_follows_upload (1 # 2) (1 # 3) Sample.secondUpload
           Sample.onboarded Sample.stamps Sample.body Sample.toneBody
           H1 H2 H3).
Defined.

(** X18. With a stored profile that meets the declared UserProfile type
    (in particular its bio and relationshipGoals are strings, which
    [UserProfile.t] enforces and POST /api/profile does not check),
    POST /api/simulations/run appends exactly two agent messages to the
    chat history - the start notice, then the completion message it also
    returns -, stores the summary it returns (50 simulations, computed from
    the stored profile), which GET /api/simulations/results then gives
    back, and leaves the profile as it was.  A stored profile that lacks
    one of the two strings is outside this statement: there the run throws
    after the start notice. *)
Theorem simulations_run_effect
        (env : RunEnv) (storage : Storage.t) (profile : UserProfile.t) :
  Storage.getProfile storage = Some profile ->
  let storage' := snd (handle (POST_simulations_run env) storage) in
  exists results completion,
    fst (handle (POST_simulations_run env) storage)
    = SimulationsRun results completion
    /\ Storage.getChatHistory storage'
       = Storage.getChatHistory storage
         ++ [ChatMessage.mk (uuid (startStamp env)) ChatMessage.agent
                            startText (now (startStamp env));
             completion]
    /\ ChatMessage.sender completion = ChatMessage.agent
    /\ ChatMessage.content completion = summaryText env
    /\ handle GET_simulations_results storage'
       = (SimulationResults results, storage')
    /\ SimulationSummary.total_simulations results = 50
    /\ results
       = Simulations.runSimulations
           (draws env) (profileSummary env) profile
           (Storage.getChatHistory storage
            ++ [ChatMessage.mk (uuid (startStamp env)) ChatMessage.agent
                               startText (now (startStamp env))])
    /\ Storage.getProfile storage' = Some profile.
Proof.
  intros Hp. cbn [handle]. unfold post_simulations_run. rewrite Hp.
  cbn [fst snd]. eexists. eexists. split; [reflexivity|].
  unfold Storage.getChatHistory, Storage.addMessage,
    Storage.saveSimulationResults, Js.push, get_simulations_results,
    Storage.getSimulationResults, Storage.getProfile in *.
  cbn [Storage.chatHistory Storage.profile Storage.simulationResults
       ChatMessage.sender ChatMessage.content].
  rewrite <- app_assoc. repeat split; try assumption.
Qed.

Lemma simulations_run_effect_witness :
  Storage.getProfile Sample.onboarded
  = Some (UserProfile.mk "uuid-1" "Alex" "25-34" "non-binary" "everyone"
                         "I like hiking and board games." "long-term"
                         (TextingTone.mk 50 50 85) (Some 3) []
                         1700000000000)
  /\ let env :=
       mkRunEnv (mkStamp "uuid-5" 1700000003000) (fun _ => 1 # 2)
                "summary" "done" (mkStamp "uuid-6" 1700000004000) in
     let profile :=
       UserProfile.mk "uuid-1" "Alex" "25-34" "non-binary" "everyone"
                      "I like hiking and board games." "long-term"
                      (TextingTone.mk 50 50 85) (Some 3) []
                      1700000000000 in
     let storage' :=
       snd (handle (POST_simulations_run env) Sample.onboarded) in
     exists results completion,
       fst (handle (POST_simulations_run env) Sample.onboarded)
       = SimulationsRun results completion
       /\ Storage.getChatHistory storage'
          = Storage.getChatHistory Sample.onboarded
            ++ [ChatMessage.mk (uuid (startStamp env)) ChatMessage.agent
                               startText (now (startStamp env));
                completion]
       /\ ChatMessage.sender completion = ChatMessage.agent
       /\ ChatMessage.content completion = summaryText env
       /\ handle GET_simulations_results storage'
          = (SimulationResults results, storage')
       /\ SimulationSummary.total_simulations results = 50
       /\ results
          = Simulations.runSimulations
              (draws env) (profileSummary env) profile
              (Storage.getChatHistory Sample.onboarded
               ++ [ChatMessage.mk (uuid (startStamp env)) ChatMessage.agent
                                  startText (now (startStamp env))])
       /\ Storage.getProfile storage' = Some profile.
Proof.
  assert (H : Storage.getProfile Sample.onboarded
              = Some (UserProfile.mk "uuid-1" "Alex" "25-34" "non-binary"
                        "everyone" "I like hiking and board games."
                        "long-term" (TextingTone.mk 50 50 85) (Some 3) []
                        1700000000000)) by reflexivity.
  split; [exact H|].
  exact (@simulations_run_effect
           (mkRunEnv (mkStamp "uuid-5" 1700000003000) (fun _ => 1 # 2)
                     "summary" "done" (mkStamp "uuid-6" 1700000004000))
           Sample.onboarded _ H).
Defined.

Lemma history_step_refl storage storage' :
  storage' = storage -> Transcript.history_step storage storage'.
Proof.
  intros ->. exists []. rewrite app_nil_r.
  split; [reflexivity|]. split; [reflexivity|]. split; [|split].
  - intros _ first E. discriminate.
  - intros _. now split.
  - intros H _. exact H.
Qed.

Lemma handle_history request storage :
  Transcript.history_step storage (snd (handle request storage)).
Proof.
  destruct storage as [[p|] h r]; destruct request; cbn [handle];
    try (apply history_step_refl; reflexivity).
  - unfold post_profile. destruct (textingTone body);
      [|apply history_step_refl; reflexivity].
    eexists. cbn. split; [reflexivity|]. repeat split; discriminate.
  - unfold post_photos. cbn.
    destruct (List.length files =? 0)%nat;
      [apply history_step_refl; reflexivity|].
    exists []. cbn. rewrite app_nil_r. repeat split; discriminate.
  - unfold get_photos_verification. cbn.
    destruct (List.length (UserProfile.photos p) =? 0)%nat;
      apply history_step_refl; reflexivity.
  - unfold post_chat_message.
    destruct content as [[|c content]|];
      try (apply history_step_refl; reflexivity).
    eexists. cbn. unfold Js.push. rewrite <- app_assoc.
    split; [reflexivity|]. repeat split; discriminate.
  - eexists. cbn. unfold Js.push. rewrite <- app_assoc.
    split; [reflexivity|]. repeat split; discriminate.
  - unfold get_simulations_results. cbn.
    destruct r; apply history_step_refl; reflexivity.
  - unfold post_profile. destruct (textingTone body);
      [|apply history_step_refl; reflexivity].
    eexists. cbn. split; [reflexivity|]. repeat split; try discriminate.
    intros _ first E. now injection E as <-.
  - unfold post_chat_message.
    destruct content as [[|c content]|]; apply history_step_refl;
      reflexivity.
  - unfold get_simulations_results. cbn.
    destruct r; apply history_step_refl; reflexivity.
Qed.

Lemma serve_invariant (P : Storage.t -> Prop) :
  (forall request storage, P storage -> P (snd (handle request storage))) ->
  forall requests storage, P storage -> P (serve requests storage).
Proof.
  intros Hstep requests. induction requests as [|request requests IH];
    intros storage HP; [exact HP|].
  cbn [serve fold_left]. apply IH. now apply Hstep.
Qed.

(** X19. The server only ever appends to the chat history: after any
    sequence of requests, from any store, the history that was there is
    still there, unchanged and in front, followed by what the requests
    added. *)
Theorem chat_history_append_only
        (requests : list Request) (storage : Storage.t) :
  exists added,
    Storage.getChatHistory (serve requests storage)
    = Storage.getChatHistory storage ++ added.
Proof.
  revert storage. induction requests as [|request requests IH];
    intros storage.
  - exists []. now rewrite app_nil_r.
  - cbn [serve fold_left].
    destruct (IH (snd (handle request storage))) as (more & Hmore).
    destruct (handle_history request storage) as (added & Hadd & _).
    exists (added ++ more). unfold serve in Hmore.
    now rewrite Hmore, Hadd, app_assoc.
Qed.

Lemma answered_app h l :
  Transcript.answered h = true -> Transcript.answered l = true ->
  Transcript.answered (h ++ l) = true.
Proof.
  induction h as [|m rest IH]; intros Hh Hl; [exact Hl|].
  cbn [app Transcript.answered] in *.
  apply andb_true_iff in Hh. destruct Hh as [Hm Hrest].
  rewrite (IH Hrest Hl), andb_true_r.
  destruct rest as [|n rest']; [|exact Hm].
  rewrite orb_false_r in Hm. now rewrite Hm.
Qed.

(** X20. In every store the server reaches from its initial state, every
    message of the user in the chat history is directly followed by a
    message of the agent; the history never ends on a user message. *)
Theorem every_user_message_answered (requests : list Request) :
  let history := Storage.getChatHistory (serve requests Storage.initial) in
  Transcript.answered history = true
  /\ (forall default,
         history <> [] ->
         ChatMessage.sender (last history default) = ChatMessage.agent).
Proof.
  assert (Hans : Transcript.answered
                   (Storage.getChatHistory (serve requests Storage.initial))
                 = true).
  { apply (serve_invariant
             (fun st => Transcript.answered (Storage.getChatHistory st)
                        = true)); [|reflexivity].
    intros request storage Hinv.
    destruct (handle_history request storage) as (added & -> & Ha & _).
    now apply answered_app. }
  cbv zeta. split; [exact Hans|].
  intros default. revert Hans.
  generalize (Storage.getChatHistory (serve requests Storage.initial)) as h.
  induction h as [|m rest IH]; intros Hans Hne; [now elim Hne|].
  cbn [Transcript.answered] in Hans. apply andb_true_iff in Hans.
  destruct Hans as [Hm Hrest]. destruct rest as [|n rest'].
  - cbn [last]. rewrite orb_false_r in Hm.
    unfold Transcript.from_agent in Hm.
    now destruct (ChatMessage.sender m).
  - change (last (m :: n :: rest') default) with (last (n :: rest') default).
    apply IH; [exact Hrest | discriminate].
Qed.

(** X21. In every store the server reaches from its initial state nothing
    exists before a profile does: while no profile is stored the chat
    history is empty and there are no simulation results; once a profile is
    stored the history is not empty and starts with a message of the
    agent. *)
Theorem nothing_before_profile (requests : list Request) :
  let storage := serve requests Storage.initial in
  (Storage.getProfile storage = None ->
   Storage.getChatHistory storage = []
   /\ Storage.getSimulationResults storage = None)
  /\ (Storage.getProfile storage <> None ->
      exists first rest,
        Storage.getChatHistory storage = first :: rest
        /\ ChatMessage.sender first = ChatMessage.agent).
Proof.
  cbv zeta.
  apply (serve_invariant
           (fun st =>
              (Storage.getProfile st = None ->
               Storage.getChatHistory st = []
               /\ Storage.getSimulationResults st = None)
              /\ (Storage.getProfile st <> None ->
                  exists first rest,
                    Storage.getChatHistory st = first :: rest
                    /\ ChatMessage.sender first = ChatMessage.agent)));
    [|split; [now split | intros H; now elim H]].
  intros request storage [Hnone Hsome].
  destruct (handle_history request storage)
    as (added & Hadd & _ & Hfirst & Hstill & Hcreate).
  pose proof (@handle_keeps_profile request storage) as Hkeep.
  split.
  - intros Hp'. destruct (Hstill Hp') as [-> Hres].
    assert (Hp : Storage.getProfile storage = None).
    { destruct (Storage.getProfile storage) eqn:E; [|reflexivity].
      exfalso. apply Hkeep; [discriminate | exact Hp']. }
    destruct (Hnone Hp) as [Hh Hr].
    rewrite Hadd, Hh, Hres, Hr. now split.
  - intros Hp'. rewrite Hadd.
    destruct (Storage.getProfile storage) as [p|] eqn:E.
    + destruct Hsome as (first & rest & -> & Hagent); [discriminate|].
      exists first, (rest ++ added). now split.
    + destruct (Hnone eq_refl) as [-> _]. cbn [app].
      destruct added as [|first rest].
      * exfalso. apply Hp'. now apply Hcreate.
      * exists first, rest. split; [reflexivity|].
        specialize (Hfirst eq_refl first eq_refl).
        unfold Transcript.from_agent in Hfirst.
        now destruct (ChatMessage.sender first).
Qed.

(* ================================================================== *)
(** * The language-model client *)
(* ================================================================== *)

Lemma last_element_snoc {A} (l : list A) (x : A) :
  JsArray.last_element (l ++ [x]) = Some x.
Proof.
  unfold JsArray.last_element. rewrite length_app. cbn [List.length].
  replace (List.length l + 1 - 1)%nat with (List.length l) by lia.
  rewrite nth_error_app2 by lia. now rewrite Nat.sub_diag.
Qed.

Lemma last_element_nonempty {A} (l : list A) :
  l <> [] -> exists x, JsArray.last_element l = Some x.
Proof.
  intros Hne. destruct (exists_last Hne) as (l' & x & ->).
  exists x. apply last_element_snoc.
Qed.

Lemma fallback_canned lastMessage :
  In (LlmClient.fallback lastMessage)
     [LlmClient.reply_vibe; LlmClient.reply_scenario; LlmClient.reply_tips;
      LlmClient.reply_check_in; LlmClient.reply_default].
Proof.
  unfold LlmClient.fallback.
  destruct (Js.includes lastMessage "analyze" && Js.includes lastMessage "vibe");
    [now left|].
  destruct (Js.includes lastMessage "simulation"
            || Js.includes lastMessage "scenario"); [right; now left|].
  destruct (Js.includes lastMessage "coaching"
            || Js.includes lastMessage "tips"); [right; right; now left|].
  destruct (Js.includes lastMessage "check in"
            || Js.includes lastMessage "feeling");
    [right; right; right; now left|].
  right; right; right; right; now left.
Qed.

(** X22. [callLLM] resolves whenever it is given at least one message,
    whatever the hosted model does: it returns the text of the response (the
    empty string when the response has no text block), and when the request
    throws it returns one of the five canned replies.  Only with an empty
    message array and a throwing request does the promise reject. *)
Theorem callLLM_resolves
        (toLowerCase : string -> string) (api : LlmClient.ApiOutcome)
        (messages : list LlmClient.LLMMessage) :
  messages <> [] ->
  (exists reply,
      LlmClient.callLLM toLowerCase api messages = Some reply
      /\ (forall text, api = LlmClient.Replied (Some text) -> reply = text)
      /\ (api = LlmClient.Replied None -> reply = EmptyString)
      /\ (api = LlmClient.Threw ->
          In reply [LlmClient.reply_vibe; LlmClient.reply_scenario;
                    LlmClient.reply_tips; LlmClient.reply_check_in;
                    LlmClient.reply_default]))
  /\ LlmClient.callLLM toLowerCase LlmClient.Threw [] = None.
Proof.
  intros Hne. split; [|reflexivity].
  destruct api as [[text|]|]; cbn [LlmClient.callLLM].
  - exists text. repeat split; try discriminate.
    intros t E. now injection E as <-.
  - exists EmptyString. repeat split; discriminate.
  - destruct (last_element_nonempty Hne) as (message & ->).
    eexists. split; [reflexivity|]. repeat split; try discriminate.
    intros _. apply fallback_canned.
Qed.

Lemma callLLM_resolves_witness :
  [LlmClient.mkMessage LlmClient.user "any coaching tips?"] <> []
  /\ (exists reply,
         LlmClient.callLLM (fun s => s) LlmClient.Threw
           [LlmClient.mkMessage LlmClient.user "any coaching tips?"]
         = Some reply
         /\ (forall text,
                LlmClient.Threw = LlmClient.Replied (Some text) ->
                reply = text)
         /\ (LlmClient.Threw = LlmClient.Replied None ->
             reply = EmptyString)
         /\ (LlmClient.Threw = LlmClient.Threw ->
             In reply [LlmClient.reply_vibe; LlmClient.reply_scenario;
                       LlmClient.reply_tips; LlmClient.reply_check_in;
                       LlmClient.reply_default]))
  /\ LlmClient.callLLM (fun s => s) LlmClient.Threw [] = None.
Proof.
  assert (H : [LlmClient.mkMessage LlmClient.user "any coaching tips?"]
              <> []) by discriminate.
  split; [exact H|].
  exact (@callLLM_resolves (fun s => s) LlmClient.Threw
           [LlmClient.mkMessage LlmClient.user "any coaching tips?"] H).
Defined.

Lemma slice_last_snoc {A} (n : nat) (l : list A) (x : A) :
  (0 < n)%nat ->
  JsArray.slice_last n (l ++ [x])
  = JsArray.slice_last (n - 1) l ++ [x].
Proof.
  intros Hn. unfold JsArray.slice_last. rewrite length_app.
  cbn [List.length]. rewrite skipn_app.
  replace (List.length l + 1 - n)%nat with (List.length l - (n - 1))%nat
    by lia.
  replace (List.length l - (n - 1) - List.length l)%nat with 0%nat by lia.
  reflexivity.
Qed.

(** X23. The chat handler never sends more than the system prompt and the
    last 10 messages of the history to the model: the array it builds
    starts with the system prompt and holds 1 + min(10, length of the
    history) messages. *)
Theorem chatMessages_window
        (systemPrompt : string) (chatHistory : list ChatMessage.t) :
  let messages := LlmClient.chatMessages systemPrompt chatHistory in
  hd_error messages
  = Some (LlmClient.mkMessage LlmClient.system systemPrompt)
  /\ List.length messages = (1 + Nat.min 10 (List.length chatHistory))%nat
  /\ (List.length messages <= 11)%nat
  /\ map LlmClient.content (tl messages)
     = JsArray.slice_last 10 (map ChatMessage.content chatHistory).
Proof.
  unfold LlmClient.chatMessages, JsArray.slice_last.
  cbn [hd_error List.length tl]. rewrite length_map, length_skipn.
  rewrite map_map. cbn [LlmClient.content]. rewrite length_map, skipn_map.
  repeat split; lia.
Qed.

(** X24. When the request to the model throws, the reply to a chat message
    depends on the text of that message alone: the message just stored is
    the last one of the array passed to [callLLM], so the reply is the
    canned text the ladder picks for its lower-cased content, whatever the
    system prompt and the earlier history. *)
Theorem chat_reply_when_model_fails
        (toLowerCase : string -> string) (systemPrompt : string)
        (chatHistory : list ChatMessage.t) (userMessage : ChatMessage.t) :
  LlmClient.callLLM toLowerCase LlmClient.Threw
    (LlmClient.chatMessages systemPrompt (chatHistory ++ [userMessage]))
  = Some (LlmClient.fallback
            (toLowerCase (ChatMessage.content userMessage))).
Proof.
  unfold LlmClient.chatMessages.
  rewrite slice_last_snoc by lia. rewrite map_app. cbn [map].
  cbn [LlmClient.callLLM]. rewrite app_comm_cons, last_element_snoc.
  reflexivity.
Qed.

(* ================================================================== *)
(** * Strengths and improvements *)
(* ================================================================== *)

Lemma distinct_NoDup (l : list string) :
  Transcript.distinct l = true -> NoDup l.
Proof.
  induction l as [|x rest IH]; intros H; [constructor|].
  cbn [Transcript.distinct] in H. apply andb_true_iff in H.
  destruct H as [Hx Hrest]. constructor; [|now apply IH].
  rewrite In_existsb_eqb. now destruct (existsb (String.eqb x) rest).
Qed.

Lemma includes_In (arr : list string) (x : string) :
  JsArray.includes arr x = true <-> In x arr.
Proof. unfold JsArray.includes. symmetry. apply In_existsb_eqb. Qed.

Lemma Set_add_fold (arr acc : list string) :
  NoDup acc ->
  NoDup (fold_left JsArray.Set_add arr acc)
  /\ (forall x, In x (fold_left JsArray.Set_add arr acc)
                <-> In x acc \/ In x arr)
  /\ (List.length (fold_left JsArray.Set_add arr acc)
      <= List.length acc + List.length arr)%nat.
Proof.
  revert acc. induction arr as [|a arr IH]; intros acc Hnd.
  - cbn. repeat split; try assumption; try tauto; lia.
  - cbn [fold_left].
    change (JsArray.Set_add acc a)
      with (if JsArray.includes acc a then acc else acc ++ [a]).
    destruct (JsArray.includes acc a) eqn:E.
    + apply includes_In in E.
      destruct (IH acc Hnd) as (H1 & H2 & H3).
      split; [exact H1|]. split.
      * intros x. rewrite H2. cbn [In]. intuition (subst; auto).
      * cbn [List.length]. lia.
    + assert (Ha : ~ In a acc).
      { intros H. apply includes_In in H. congruence. }
      assert (Hnd' : NoDup (acc ++ [a])).
      { apply NoDup_app; [assumption | repeat constructor; auto |].
        intros x Hx [<-|[]]. contradiction. }
      destruct (IH (acc ++ [a]) Hnd') as (H1 & H2 & H3).
      split; [exact H1|]. split.
      * intros x. rewrite H2, in_app_iff. cbn [In]. tauto.
      * rewrite length_app in H3. cbn [List.length] in *. lia.
Qed.

Lemma improvements_fold (issues acc : list string) :
  (forall x, In x (fold_left VibeSummary.improvements_step issues acc) ->
             In x acc
             \/ In x [VibeSummary.improve_questions; VibeSummary.improve_pace;
                      VibeSummary.improve_details;
                      VibeSummary.improve_rapport])
  /\ (List.length (fold_left VibeSummary.improvements_step issues acc)
      <= List.length acc + List.length issues)%nat.
Proof.
  revert acc. induction issues as [|issue issues IH]; intros acc.
  - cbn. split; [tauto | lia].
  - cbn [fold_left]. destruct (IH (VibeSummary.improvements_step acc issue))
      as (H1 & H2).
    assert (Hstep :
              (forall x, In x (VibeSummary.improvements_step acc issue) ->
                         In x acc
                         \/ In x [VibeSummary.improve_questions;
                                  VibeSummary.improve_pace;
                                  VibeSummary.improve_details;
                                  VibeSummary.improve_rapport])
              /\ (List.length (VibeSummary.improvements_step acc issue)
                  <= List.length acc + 1)%nat).
    { unfold VibeSummary.improvements_step, Js.push.
      destruct (Js.includes issue "question");
        [|destruct (Js.includes issue "eager");
          [|destruct (Js.includes issue "brief");
            [|destruct (Js.includes issue "sharing")]]];
        (split; [intros x Hx; try apply in_app_or in Hx; cbn [In] in *;
                 intuition auto
                |rewrite ?length_app; cbn [List.length]; lia]). }
    destruct Hstep as (S1 & S2). split.
    + intros x Hx. destruct (H1 x Hx) as [Hacc|Hcanned]; [|now right].
      now apply S1.
    + cbn [List.length]. lia.
Qed.

(** X25. For every list of common issues, areas_to_improve has no
    duplicate string, at most 4 entries, no more entries than there are
    issues, and only holds the four canned remediation texts.  For the
    common issues of a simulation run it is always the same three texts:
    pace, questions, details. *)
Theorem identifyImprovements_distinct
        (commonIssues : list string) (vibeAnalysis : Llm.VibeAnalysis) :
  let areas := VibeSummary.identifyImprovements commonIssues vibeAnalysis in
  NoDup areas
  /\ (List.length areas <= 4)%nat
  /\ (List.length areas <= List.length commonIssues)%nat
  /\ (forall area,
         In area areas ->
         In area [VibeSummary.improve_questions; VibeSummary.improve_pace;
                  VibeSummary.improve_details; VibeSummary.improve_rapport])
  /\ (forall rnd profileSummary profile,
         VibeSummary.identifyImprovements
           (SimulationSummary.common_issues
              (Simulations.analyzeSimulations
                 (Simulations.generateBatch rnd profileSummary)
                 vibeAnalysis profile))
           vibeAnalysis
         = [VibeSummary.improve_pace; VibeSummary.improve_questions;
            VibeSummary.improve_details]).
Proof.
  cbv zeta. unfold VibeSummary.identifyImprovements, Js.slice0,
    JsArray.Set_of.
  set (improvements := fold_left VibeSummary.improvements_step
                                 commonIssues []).
  destruct (@Set_add_fold improvements [] (NoDup_nil _)) as (H1 & H2 & H3).
  destruct (improvements_fold commonIssues []) as (I1 & I2).
  fold improvements in I1, I2.
  set (unique := fold_left JsArray.Set_add improvements []) in *.
  split; [|split; [|split; [|split]]].
  - rewrite <- (firstn_skipn 4 unique) in H1.
    now apply NoDup_app_remove_r in H1.
  - rewrite length_firstn. lia.
  - rewrite length_firstn. cbn [List.length] in *. lia.
  - intros area Ha. apply In_firstn in Ha. apply H2 in Ha.
    destruct Ha as [[]|Ha]. destruct (I1 area Ha) as [[]|Hc]. exact Hc.
  - intros rnd ps profile.
    cbn [Simulations.analyzeSimulations SimulationSummary.common_issues].
    rewrite generateBatch_commonIssues. vm_compute. reflexivity.
Qed.

(** X26. For every profile, vibe analysis and average score, the strengths
    list is never empty, has at most 6 entries and no duplicate, and holds
    the authenticity strength whenever the key traits include "authentic" -
    which the vibe analysis of this program always does, so a run never
    falls back to the two default strengths. *)
Theorem identifyStrengths_nonempty
        (length_of : string -> Z) (profile : UserProfile.t)
        (vibeAnalysis : Llm.VibeAnalysis) (avgCompatibility : Z) :
  let strengths :=
    VibeSummary.identifyStrengths length_of profile vibeAnalysis
                                  avgCompatibility in
  strengths <> []
  /\ (List.length strengths <= 6)%nat
  /\ NoDup strengths
  /\ (In "authentic" (Llm.key_traits vibeAnalysis) ->
      In VibeSummary.strength_authentic strengths)
  /\ (forall bio userMessages,
         In VibeSummary.strength_authentic
            (VibeSummary.identifyStrengths
               length_of profile (Llm.analyzeVibe bio userMessages)
               avgCompatibility)).
Proof.
  assert (Hmain : forall vibe,
             let strengths :=
               VibeSummary.identifyStrengths length_of profile vibe
                                             avgCompatibility in
             strengths <> []
             /\ (List.length strengths <= 6)%nat
             /\ NoDup strengths
             /\ (JsArray.includes (Llm.key_traits vibe) "authentic" = true ->
                 In VibeSummary.strength_authentic strengths)).
  { intros vibe. cbv zeta. unfold VibeSummary.identifyStrengths, Js.push.
    destruct (TextingTone.positivity (UserProfile.textingTone profile)
              >=? 70);
      destruct (TextingTone.playfulness (UserProfile.textingTone profile)
                >=? 60);
      destruct (length_of (UserProfile.bio profile) >? 50);
      destruct (avgCompatibility >=? 70);
      destruct (JsArray.includes (Llm.key_traits vibe) "authentic");
      destruct ((TextingTone.responseLength (UserProfile.textingTone profile)
                 >=? 40)
                && (TextingTone.responseLength
                      (UserProfile.textingTone profile) <=? 70));
      cbn [app List.length Nat.ltb Nat.leb];
      (split; [discriminate|]); (split; [lia|]);
      (split; [apply distinct_NoDup; vm_compute; reflexivity|]);
      intros H; try discriminate; rewrite In_existsb_eqb; vm_compute;
      reflexivity. }
  cbv zeta. destruct (Hmain vibeAnalysis) as (H1 & H2 & H3 & H4).
  repeat split; try assumption.
  - intros Hin. apply H4. now apply includes_In.
  - intros bio userMessages.
    destruct (Hmain (Llm.analyzeVibe bio userMessages)) as (_ & _ & _ & H).
    apply H. reflexivity.
Qed.
